(** * thira: the sync ledger and the reconciliation pass of [main.py]

    A shallow embedding of [StateManager], of the formatting functions of
    [JiraManager], of [Things3Manager.add_todo] and of [Thira.sync_tickets],
    followed by the properties of the ledger and of one sync pass.

    Python strings are modelled as [string], one character of the model for
    one character of the Python string; [len], slicing and concatenation
    do not look at which character it is. *)

From Stdlib Require Import String Ascii ZArith List Bool Lia.
From stdpp Require Import gmap strings list.

Set Warnings "-clear-no-such-hyp".

Local Open Scope Z_scope.
Local Open Scope nat_scope.

(** ** Python values met in the program *)

(** The exceptions the program distinguishes in its handlers, and those
    its own statements can raise past them. *)
Inductive exn :=
| JSONDecodeError
| IOError
| CalledProcessError
| OtherError (msg : string)
| AttributeError
| TypeError
| UnicodeDecodeError.

(** The outcome of a call that may raise. *)
Inductive outcome (A : Type) :=
| Ret (a : A)
| Raise (e : exn).
Arguments Ret {A} a.
Arguments Raise {A} e.

(** The values stored in the dict built by [get_sync_stats]. *)
Inductive pyval :=
| PInt (n : Z)
| PStr (s : string)
| PList (l : list string).

(** Truth value of a Python string: false exactly for the empty one. *)
Definition truthy (s : string) : bool :=
  match s with
  | EmptyString => false
  | String _ _ => true
  end.

(** The one-character string holding a line feed. *)
Definition nl : string := String (ascii_of_nat 10) EmptyString.

(** [sep.join(parts)]. *)
Fixpoint join (sep : string) (parts : list string) : string :=
  match parts with
  | [] => ""
  | [p] => p
  | p :: rest => p +:+ sep +:+ join sep rest
  end.

(** ** The state file

    What [json.load] makes of the file at [STATE_FILE].  The program only
    ever writes an object with the two keys below; an object may lack either
    key, which the [data.get(..., default)] calls provide for, and a file may
    fail to open or to parse, which the handlers of [JSONDecodeError] and
    [IOError] provide for.  These are the files a running [StateManager]
    can have under it: on a file of any other content [_load_state] raises
    past its handler and the constructor with it; such files are the
    [foreign] ones below, with [load_found] for what the load does on
    them. *)
Record state_data := {
  d_synced_tickets : option (list string);  (* data.get("synced_tickets") *)
  d_last_sync : option string;              (* data.get("last_sync") *)
}.

Inductive file :=
| Malformed                (* json.load raises JSONDecodeError; also the empty file *)
| Unreadable               (* open(..., "r") raises IOError *)
| Data (d : state_data).

(** A Jira issue, as far as the program reads it.  [hasattr] is the outer
    [option]; an attribute that exists may hold [None], which the guard at
    line 253 provides for in the description and nothing provides for in
    the reporter. *)
Record issue := {
  key : string;                          (* issue.key *)
  summary : string;                      (* issue.fields.summary *)
  permalink : string;                    (* issue.permalink() *)
  reporter : option (option string);     (* issue.fields.reporter: its displayName *)
  description : option (option string);  (* issue.fields.description *)
}.

(** ** Output

    One constructor per [print] of the program, carrying the values the
    line interpolates. *)
Inductive message :=
| WarnLoadState (e : exn)               (* Warning: could not load sync state: {e} *)
| WarnCreateState (e : exn)             (* Warning: could not create state file: {e} *)
| WarnSaveState (e : exn)               (* Warning: could not save sync state: {e} *)
| WarnLoadStats (e : exn)               (* Warning: could not load state: {e} *)
| MsgStateCleared                       (* Sync state cleared. ... *)
| ErrAddTodo (e : exn)                  (* Error adding todo to Things3: {e} *)
| ErrFetch (e : exn)                    (* Error fetching tickets: {e} *)
| MsgStarting                           (* Starting JIRA to Things3 sync... *)
| MsgPreviousStats (total last : pyval) (* Previous sync stats: ... *)
| MsgNoTickets                          (* No tickets found to sync *)
| MsgFound (n : nat)                    (* Found {n} ticket(s) from JIRA *)
| MsgSkipping (n : nat)                 (* Skipping {n} already synced tickets. ... *)
| MsgNoNew                              (* No new tickets to sync. *)
| MsgSyncing (n : nat)                  (* Syncing {n} tickets... *)
| MsgDone (action k s : string)         (* {action}: {key} - {summary} *)
| MsgFailed (k : string)                (* Failed to sync: {key} *)
| MsgError (k : string) (e : exn)       (* Error syncing {key}: {e} *)
| MsgCompleted (synced total : nat)     (* Sync completed! {synced}/{total} ... *)
| MsgTotalEver (total : pyval)          (* Total tickets ever synced {total} *)
| MsgStatusHeader                       (* === Sync Status === *)
| MsgStatusTotal (total : pyval)        (* Total tickets synced: {total} *)
| MsgStatusLast (last : pyval)          (* Last sync: {last} *)
| MsgCleared                            (* Cleared sync state of all tickets. ... *)
| MsgRemoved (k : string).              (* Removed {key} from sync state. ... *)

(** ** The world outside the process *)

(** What an attempt to write the state file does. *)
Inductive write_outcome :=
| Written      (* the file now holds what was written *)
| OpenFailed   (* open(..., "w") raised IOError: the file is as before *)
| Torn.        (* the file was opened, hence truncated, and the write raised *)

(** The collaborators the program calls and does not define. *)
Record Env := {
  (* jira.search_issues(jql, maxResults=n) *)
  search_issues : string -> Z -> outcome (list issue);
  (* subprocess.run(["open", url], check=True), for the n-th launch *)
  subprocess_run : nat -> string -> outcome unit;
  (* the n-th attempt to write the state file *)
  open_write : nat -> write_outcome;
  (* datetime.now().isoformat(), for the n-th reading of the clock *)
  datetime_now : nat -> string;
  (* urllib.parse.urlencode(params, quote_via=quote) *)
  urlencode : list (string * string) -> string;
}.

Record world := {
  disk : option file;       (* the state file; None when it does not exist *)
  stdout : list message;    (* the lines printed so far, oldest first *)
  opened : list string;     (* the URLs handed to `open` so far, oldest first *)
  writes : nat;             (* write attempts on the state file so far *)
  clock : nat;              (* readings of the clock so far *)
}.

Definition set_disk (d : option file) (w : world) : world :=
  {| disk := d; stdout := stdout w; opened := opened w;
     writes := writes w; clock := clock w |}.
Definition add_stdout (m : message) (w : world) : world :=
  {| disk := disk w; stdout := stdout w ++ [m]; opened := opened w;
     writes := writes w; clock := clock w |}.
Definition add_opened (u : string) (w : world) : world :=
  {| disk := disk w; stdout := stdout w; opened := opened w ++ [u];
     writes := writes w; clock := clock w |}.
Definition tick_writes (w : world) : world :=
  {| disk := disk w; stdout := stdout w; opened := opened w;
     writes := S (writes w); clock := clock w |}.
Definition tick_clock (w : world) : world :=
  {| disk := disk w; stdout := stdout w; opened := opened w;
     writes := writes w; clock := S (clock w) |}.

(** ** A state monad over the world *)

Definition M (A : Type) : Type := world -> A * world.

Definition ret {A} (a : A) : M A := fun w => (a, w).
Definition bind {A B} (m : M A) (k : A -> M B) : M B :=
  fun w => let (a, w') := m w in k a w'.

Notation "'do' x <- m ; k" := (bind m (fun x => k))
  (at level 10, x name, m at level 100, k at level 200).
Notation "'do' ' p <- m ; k" := (bind m (fun x => match x with p => k end))
  (at level 10, p pattern, m at level 100, k at level 200).
Notation "m ;; k" := (bind m (fun _ => k))
  (at level 100, k at level 200, right associativity).

Definition print (m : message) : M unit := fun w => (tt, add_stdout m w).

(** [os.path.exists(STATE_FILE)]. *)
Definition os_path_exists : M bool :=
  fun w => (match disk w with Some _ => true | None => false end, w).

(** [with open(STATE_FILE, "r") as f: json.load(f)], the file existing. *)
Definition json_load : M (outcome state_data) :=
  fun w => (match disk w with
            | Some (Data d) => Ret d
            | Some Malformed => Raise JSONDecodeError
            | Some Unreadable => Raise IOError
            | None => Raise IOError
            end, w).

(** [os.remove(STATE_FILE)]. *)
Definition os_remove : M unit := fun w => (tt, set_disk None w).

Section Program.

Variable E : Env.

(** [datetime.now().isoformat()]. *)
Definition now_isoformat : M string :=
  fun w => (datetime_now E (clock w), tick_clock w).

(** Opening the state file for writing and writing [c] to it. *)
Definition write_file (c : file) : M (outcome unit) :=
  fun w =>
    let w' := tick_writes w in
    match open_write E (writes w) with
    | Written => (Ret tt, set_disk (Some c) w')
    | OpenFailed => (Raise IOError, w')
    | Torn => (Raise IOError, set_disk (Some Malformed) w')
    end.

(** [subprocess.run(["open", url], check=True)]. *)
Definition run_open (url : string) : M (outcome unit) :=
  fun w => (subprocess_run E (length (opened w)) url, add_opened url w).

(** ** class StateManager *)

Record StateManager := {
  synced_tickets : gset string;
}.

Definition _load_state : M (gset string) :=
  do ex <- os_path_exists;
  if ex : bool then
    do r <- json_load;
    match r with
    | Ret data => ret (list_to_set (default [] (d_synced_tickets data)))
    | Raise e => print (WarnLoadState e) ;; ret ∅
    end
  else
    do r <- write_file Malformed;
    match r with
    | Ret _ => ret ∅
    | Raise e => print (WarnCreateState e) ;; ret ∅
    end.

(** [StateManager.__init__]. *)
Definition StateManager_init : M StateManager :=
  do s <- _load_state;
  ret {| synced_tickets := s |}.

Definition _save_state (self : StateManager) : M unit :=
  do t <- now_isoformat;
  let state_data :=
    {| d_synced_tickets := Some (elements (synced_tickets self));
       d_last_sync := Some t |} in
  do r <- write_file (Data state_data);
  match r with
  | Ret _ => ret tt
  | Raise e => print (WarnSaveState e)
  end.

Definition is_ticket_synced (self : StateManager) (ticket_key : string) : bool :=
  bool_decide (ticket_key ∈ synced_tickets self).

Definition mark_ticket_synced (self : StateManager) (ticket_key : string)
  : M StateManager :=
  let self := {| synced_tickets := {[ticket_key]} ∪ synced_tickets self |} in
  _save_state self ;;
  ret self.

Definition remove_ticket (self : StateManager) (ticket_key : string)
  : M StateManager :=
  let self := {| synced_tickets := synced_tickets self ∖ {[ticket_key]} |} in
  _save_state self ;;
  ret self.

Definition get_sync_stats : M (gmap string pyval) :=
  do ex <- os_path_exists;
  if ex : bool then
    do r <- json_load;
    match r with
    | Ret data =>
        ret (<["total_synced" :=
                 PInt (Z.of_nat (length (default [] (d_synced_tickets data))))]>
             (<["last_sync" := PStr (default "Never" (d_last_sync data))]>
              (<["synced_tickets" := PList (default [] (d_synced_tickets data))]>
               ∅)))
    | Raise e => print (WarnLoadStats e) ;; ret ∅
    end
  else ret ∅.

Definition clear_all_state (self : StateManager) : M StateManager :=
  let self := {| synced_tickets := ∅ |} in
  do ex <- os_path_exists;
  (if ex : bool then os_remove else ret tt) ;;
  print MsgStateCleared ;;
  ret self.

End Program.

(** ** The state file as a starting process finds it

    A process may start on a file that this program did not write.  Besides
    the kinds of [file], whose failures the handler at line 47 names, there
    are files on which lines 45-46 raise an exception that the handler does
    not name. *)
Inductive foreign :=
| NotUtf8             (* bytes that are not UTF-8: the read raises UnicodeDecodeError *)
| NotAnObject         (* JSON that is not an object: data.get raises AttributeError *)
| TicketsNotIterable  (* "synced_tickets" is a number, true, false or null:
                         set(...) raises TypeError *)
| TicketsUnhashable.  (* "synced_tickets" is a list holding a list or an object:
                         set(...) raises TypeError *)

Inductive found :=
| Known (f : file)
| Foreign (k : foreign).

(** Lines 44-46: what the body of the [try] comes to. *)
Definition load_body (s : found) : outcome (gset string) :=
  match s with
  | Known (Data d) => Ret (list_to_set (default [] (d_synced_tickets d)))
  | Known Malformed => Raise JSONDecodeError
  | Known Unreadable => Raise IOError
  | Foreign NotUtf8 => Raise UnicodeDecodeError
  | Foreign NotAnObject => Raise AttributeError
  | Foreign TicketsNotIterable => Raise TypeError
  | Foreign TicketsUnhashable => Raise TypeError
  end.

(** [except (json.JSONDecodeError, IOError)], at lines 47 and 96. *)
Definition handled (e : exn) : bool :=
  match e with
  | JSONDecodeError | IOError => true
  | _ => false
  end.

(** [_load_state] on a file that exists, whatever it holds (lines 43-48 and
    55): an exception that the handler does not name leaves the function. *)
Definition load_found (s : found) : M (outcome (gset string)) :=
  match load_body s with
  | Ret tickets => ret (Ret tickets)
  | Raise e =>
      if handled e then print (WarnLoadState e) ;; ret (Ret ∅)
      else ret (Raise e)
  end.


(** ** class JiraManager *)

Section Jira.

Variable E : Env.

Definition get_assigned_tickets (max_results : Z) : M (list issue) :=
  let jql :=
    "assignee = currentUser() AND resolution = Unresolved ORDER BY created DESC" in
  match search_issues E jql max_results with
  | Ret issues => ret issues
  | Raise e => print (ErrFetch e) ;; ret []
  end.

Definition get_tickets_by_jql (jql : string) (max_results : Z) : M (list issue) :=
  match search_issues E jql max_results with
  | Ret issues => ret issues
  | Raise e => print (ErrFetch e) ;; ret []
  end.

End Jira.

Definition format_ticket_name (i : issue) : string :=
  "[" +:+ key i +:+ "] " +:+ summary i.

(** Lines 252-255: the text put under the heading. *)
Definition format_description (d : option string) : string :=
  match d with
  | Some description =>
      if truthy description && (500 <? String.length description)
      then substring 0 500 description +:+ "..."
      else description
  | None => "None"
  end.

(** Line 248: [issue.fields.reporter.displayName], the attribute existing.
    [None] has no [displayName]. *)
Definition reporter_displayName (r : option string) : outcome string :=
  match r with
  | Some displayName => Ret displayName
  | None => Raise AttributeError
  end.

Definition format_ticket_notes (i : issue) : outcome string :=
  let notes_parts := [] in
  let notes_parts := notes_parts ++ ["**Ticket** " +:+ key i] in
  let notes_parts := notes_parts ++ ["**URL** " +:+ permalink i] in
  let with_reporter :=
    match reporter i with
    | Some r =>
        match reporter_displayName r with
        | Ret displayName => Ret (notes_parts ++ ["**Reporter** " +:+ displayName])
        | Raise e => Raise e
        end
    | None => Ret notes_parts
    end in
  match with_reporter with
  | Raise e => Raise e
  | Ret notes_parts =>
      let notes_parts :=
        match description i with
        | Some d =>
            notes_parts ++ [nl +:+ "**Description**" +:+ nl +:+ format_description d]
        | None => notes_parts
        end in
      Ret (join nl notes_parts)
  end.

Definition get_ticket_tags (i : issue) : list string := ["jira"].

(** ** class Things3Manager *)

Definition BASE_URL : string := "things://".

(** The default value of the [project] parameter of [add_todo]. *)
Definition TICKET_PROJECT : string := "GXZujchhWvXFy6jsS7bFWS".

(** The [params] dict of [add_todo], in insertion order. *)
Definition add_todo_params (title notes project : string) (tags : list string)
    (due_date when : string) : list (string * string) :=
  let params := [("title", title)] in
  let params := if truthy notes then params ++ [("notes", notes)] else params in
  let params := if truthy project then params ++ [("list-id", project)] else params in
  let params :=
    match tags with
    | [] => params
    | _ => params ++ [("tags", join "," tags)]
    end in
  let params := if truthy due_date then params ++ [("due-date", due_date)] else params in
  let params := if truthy when then params ++ [("when", when)] else params in
  params.

Section Things3.

Variable E : Env.

Definition add_todo_url (title notes project : string) (tags : list string)
    (due_date when : string) : string :=
  let action := "add" in
  let query_string :=
    urlencode E (add_todo_params title notes project tags due_date when) in
  BASE_URL +:+ "/" +:+ action +:+ "?" +:+ query_string.

Definition add_todo (title notes project : string) (tags : list string)
    (due_date when : string) : M (outcome bool) :=
  let full_url := add_todo_url title notes project tags due_date when in
  do r <- run_open E full_url;
  match r with
  | Ret _ => ret (Ret true)
  | Raise CalledProcessError =>
      print (ErrAddTodo CalledProcessError) ;; ret (Ret false)
  | Raise e => ret (Raise e)
  end.

End Things3.

(** ** class Thira *)

(** The aggregate the specification describes as the result of a run: the
    four counts and the failures, each an identifier and a reason.  The
    program has no such type; it is written here after the specification so
    that what [sync_tickets] returns can be compared with it. *)
Record SyncRunResult := {
  fetched : nat;
  skipped : nat;
  synced : nat;
  failed : nat;
  failures : list (string * exn);
}.

Record Thira := {
  state : StateManager;
}.

(** Line 316: whether a fetched ticket is kept for syncing. *)
Definition selected (force_resync update_existing is_synced : bool) : bool :=
  force_resync || update_existing || negb is_synced.

(** Line 339: the label printed for a ticket that was synced. *)
Definition action_label (update_existing is_synced : bool) : string :=
  if update_existing && is_synced then "Updated" else "Synced".

(** Lines 312-319: the tickets to sync and the number of tickets skipped. *)
Definition select_tickets (st : StateManager) (force_resync update_existing : bool)
    (issues : list issue) : list issue * nat :=
  fold_left
    (fun '(tickets_to_sync, skipped_count) i =>
       if selected force_resync update_existing (is_ticket_synced st (key i))
       then (tickets_to_sync ++ [i], skipped_count)
       else (tickets_to_sync, S skipped_count))
    issues ([], 0).

Section Reconciler.

Variable E : Env.

(** The URL [add_todo] opens for a ticket (lines 341-345), when its notes
    can be built. *)
Definition ticket_url (i : issue) : option string :=
  match format_ticket_notes i with
  | Ret notes =>
      Some (add_todo_url E (format_ticket_name i) notes TICKET_PROJECT
              (get_ticket_tags i) "" "")
  | Raise _ => None
  end.

(** Lines 338-355: the body of the second loop.  An exception raised while
    the notes are built reaches the handler at line 354 before anything is
    sent to Things3. *)
Definition sync_ticket (update_existing : bool) (i : issue)
    (st : StateManager) (synced_count : nat) : M (StateManager * nat) :=
  let action := action_label update_existing (is_ticket_synced st (key i)) in
  let title := format_ticket_name i in
  match format_ticket_notes i with
  | Raise e =>
      print (MsgError (key i) e) ;;
      ret (st, synced_count)
  | Ret notes =>
      let tags := get_ticket_tags i in
      do success <- add_todo E title notes TICKET_PROJECT tags "" "";
      match success with
      | Ret true =>
          print (MsgDone action (key i) (summary i)) ;;
          do st <- mark_ticket_synced E st (key i);
          ret (st, S synced_count)
      | Ret false =>
          print (MsgFailed (key i)) ;;
          ret (st, synced_count)
      | Raise e =>
          print (MsgError (key i) e) ;;
          ret (st, synced_count)
      end
  end.

(** Lines 336-355: the second loop. *)
Fixpoint sync_loop (update_existing : bool) (tickets_to_sync : list issue)
    (st : StateManager) (synced_count : nat) : M (StateManager * nat) :=
  match tickets_to_sync with
  | [] => ret (st, synced_count)
  | i :: rest =>
      do r <- sync_ticket update_existing i st synced_count;
      sync_loop update_existing rest (fst r) (snd r)
  end.

(** Lines 300-303. *)
Definition fetch_issues (jql : string) : M (list issue) :=
  if truthy jql then get_tickets_by_jql E jql 50
  else get_assigned_tickets E 50.

(** [Thira.sync_tickets]: what the call evaluates to, [None] being
    Python's [None], and the object after the call. *)
Definition sync_tickets (self : Thira) (jql project_name : string)
    (force_resync update_existing : bool) : M (option SyncRunResult * Thira) :=
  print MsgStarting ;;
  do stats <- get_sync_stats;
  (if bool_decide (stats = ∅) then ret tt
   else print (MsgPreviousStats (default (PInt 0) (stats !! "total_synced"))
                                (default (PStr "Never") (stats !! "last_sync")))) ;;
  do issues <- fetch_issues jql;
  match issues with
  | [] => print MsgNoTickets ;; ret (None, self)
  | _ :: _ =>
      print (MsgFound (length issues)) ;;
      let '(tickets_to_sync, skipped_count) :=
        select_tickets (state self) force_resync update_existing issues in
      (if 0 <? skipped_count then print (MsgSkipping skipped_count) else ret tt) ;;
      match tickets_to_sync with
      | [] => print MsgNoNew ;; ret (None, self)
      | _ :: _ =>
          print (MsgSyncing (length tickets_to_sync)) ;;
          do r <- sync_loop update_existing tickets_to_sync (state self) 0;
          print (MsgCompleted (snd r) (length tickets_to_sync)) ;;
          do final_stats <- get_sync_stats;
          print (MsgTotalEver (default (PInt 0) (final_stats !! "total_synced"))) ;;
          ret (None, {| state := fst r |})
      end
  end.

Definition get_sync_status (self : Thira) : M unit :=
  do stats <- get_sync_stats;
  print MsgStatusHeader ;;
  print (MsgStatusTotal (default (PInt 0) (stats !! "total_synced"))) ;;
  print (MsgStatusLast (default (PStr "Never") (stats !! "last_sync"))).

Definition reset_sync_state (self : Thira) : M Thira :=
  do st <- clear_all_state (state self);
  print MsgCleared ;;
  ret {| state := st |}.

Definition remove_ticket_from_sync (self : Thira) (ticket_key : string) : M Thira :=
  do st <- remove_ticket E (state self) ticket_key;
  print (MsgRemoved ticket_key) ;;
  ret {| state := st |}.

End Reconciler.

(** The per-ticket decision of the specification, read off lines 316 and
    339: a ticket that is not selected is skipped; a selected one is an
    update when it gets the label [Updated] and a creation otherwise. *)
Inductive SyncDecision := Create | Skip | Update.

Definition decision (force_resync update_existing is_synced : bool) : SyncDecision :=
  if selected force_resync update_existing is_synced
  then (if String.eqb (action_label update_existing is_synced) "Updated"
        then Update else Create)
  else Skip.

(** ** Definitions used in the statements *)

(** A run of calls to [mark_ticket_synced], in the order of the list. *)
Fixpoint mark_all (E : Env) (ks : list string) (st : StateManager) : M StateManager :=
  match ks with
  | [] => ret st
  | k :: rest => do st <- mark_ticket_synced E st k; mark_all E rest st
  end.

(** The lines that report a failed ticket. *)
Definition is_failure (m : message) : bool :=
  match m with
  | MsgFailed _ | MsgError _ _ => true
  | _ => false
  end.

(** What is printed for a ticket whose launch raised [e]: [add_todo]
    catches [CalledProcessError], prints it and returns [False]; anything
    else reaches the handler of the loop. *)
Definition failure_report (k : string) (e : exn) : list message :=
  match e with
  | CalledProcessError => [ErrAddTodo CalledProcessError; MsgFailed k]
  | _ => [MsgError k e]
  end.

(** The tickets of [l] that are launched and whose launch succeeds, the
    first launch being launch number [n].  A ticket whose notes cannot be
    built is not launched and takes no launch number. *)
Fixpoint sink_ok (E : Env) (n : nat) (l : list issue) : list issue :=
  match l with
  | [] => []
  | i :: rest =>
      match ticket_url E i with
      | None => sink_ok E n rest
      | Some url =>
          match subprocess_run E n url with
          | Ret _ => i :: sink_ok E (S n) rest
          | Raise _ => sink_ok E (S n) rest
          end
      end
  end.

(** The URLs of the tickets of [l] that can be launched, in order. *)
Definition launches (E : Env) (l : list issue) : list string :=
  omap (ticket_url E) l.

(** The fetched tickets that line 316 keeps. *)
Definition kept (st : StateManager) (force_resync update_existing : bool)
    (issues : list issue) : list issue :=
  List.filter
    (fun i => selected force_resync update_existing (is_ticket_synced st (key i)))
    issues.

(** The tickets a run fetches (lines 300-303): those the search returns,
    none when it raises. *)
Definition fetched_issues (E : Env) (jql : string) : list issue :=
  let r :=
    if truthy jql then search_issues E jql 50
    else search_issues E
           "assignee = currentUser() AND resolution = Unresolved ORDER BY created DESC"
           50 in
  match r with
  | Ret issues => issues
  | Raise _ => []
  end.

(** A step that prints no failure line and touches neither the file nor
    Things3. *)
Definition quiet (w w' : world) : Prop :=
  disk w' = disk w /\ opened w' = opened w /\
  exists out, stdout w' = stdout w ++ out /\ List.filter is_failure out = [].

(** Whether a decision is [Skip]. *)
Definition is_skip (d : SyncDecision) : bool :=
  match d with Skip => true | _ => false end.

(** The label the program prints for a decision. *)
Definition label_of (d : SyncDecision) : string :=
  match d with Update => "Updated" | _ => "Synced" end.

(** ** Sample inputs *)

(** A ticket with every field present. *)
Definition sample_ticket (k : string) : issue :=
  {| key := k; summary := "Fix it"; permalink := "https://jira/browse/" +:+ k;
     reporter := Some (Some "Ada"); description := Some (Some "Body") |}.

(** A ticket whose reporter attribute holds [None]. *)
Definition orphan_ticket (k : string) : issue :=
  {| key := k; summary := "Fix it"; permalink := "https://jira/browse/" +:+ k;
     reporter := Some None; description := Some (Some "Body") |}.

(** A body of 600 characters, and a ticket carrying it. *)
Definition long_body : string := string_of_list_ascii (repeat "x"%char 600).

Definition long_ticket : issue :=
  {| key := "T-1"; summary := "Long"; permalink := "https://jira/browse/T-1";
     reporter := None; description := Some (Some long_body) |}.

(** An environment whose search returns [issues], whose [n]-th launch ends
    as [launch n] says and whose writes all succeed. *)
Definition sample_env (issues : list issue) (launch : nat -> outcome unit) : Env :=
  {| search_issues := fun _ _ => Ret issues;
     subprocess_run := fun n _ => launch n;
     open_write := fun _ => Written;
     datetime_now := fun _ => "2025-01-01T00:00:00";
     urlencode := fun params => join "&" (map (fun p => fst p +:+ "=" +:+ snd p) params) |}.

Definition all_launches_ok : nat -> outcome unit := fun _ => Ret tt.

Definition second_launch_fails : nat -> outcome unit :=
  fun n => if Nat.eqb n 1 then Raise CalledProcessError else Ret tt.

(** A world with the given state file and nothing printed or opened yet. *)
Definition fresh_world (d : option file) : world :=
  {| disk := d; stdout := []; opened := []; writes := 0; clock := 0 |}.

Definition thira_with (ks : list string) : Thira :=
  {| state := {| synced_tickets := list_to_set ks |} |}.

(** An environment with no ticket to fetch, whose [n]-th write ends as
    [wr n] says. *)
Definition sample_env_writes (wr : nat -> write_outcome) : Env :=
  {| search_issues := fun _ _ => Ret [];
     subprocess_run := fun _ _ => Ret tt;
     open_write := wr;
     datetime_now := fun _ => "2025-01-01T00:00:00";
     urlencode := fun params => join "&" (map (fun p => fst p +:+ "=" +:+ snd p) params) |}.

(** An environment whose search raises. *)
Definition sample_env_search_fails (e : exn) : Env :=
  {| search_issues := fun _ _ => Raise e;
     subprocess_run := fun _ _ => Ret tt;
     open_write := fun _ => Written;
     datetime_now := fun _ => "2025-01-01T00:00:00";
     urlencode := fun params => join "&" (map (fun p => fst p +:+ "=" +:+ snd p) params) |}.

(** A step that leaves the file, the launches and the two counters as they
    are: it can only print. *)
Definition same_store (w w' : world) : Prop :=
  disk w' = disk w /\ opened w' = opened w /\
  writes w' = writes w /\ clock w' = clock w.

(** The query [sync_tickets] sends for a given [jql] argument: the default
    query of [get_assigned_tickets] when the argument is empty. *)
Definition effective_jql (jql : string) : string :=
  if truthy jql then jql
  else "assignee = currentUser() AND resolution = Unresolved ORDER BY created DESC".

(** * Properties *)

(** ** The ledger *)

Ltac unfold_m :=
  unfold mark_ticket_synced, remove_ticket, _save_state, write_file,
    now_isoformat, print, bind, ret in *; cbn [fst snd] in *.

Section Ledger.

Variable E : Env.

Lemma is_ticket_synced_true st k :
  is_ticket_synced st k = true <-> k ∈ synced_tickets st.
Proof. unfold is_ticket_synced. apply bool_decide_eq_true. Qed.

(** What [_save_state] leaves behind, by the fate of the write. *)
Lemma save_state_world st w :
  let w' := snd (_save_state E st w) in
  opened w' = opened w /\ writes w' = S (writes w) /\ clock w' = S (clock w) /\
  match open_write E (writes w) with
  | Written =>
      disk w' = Some (Data {| d_synced_tickets := Some (elements (synced_tickets st));
                              d_last_sync := Some (datetime_now E (clock w)) |}) /\
      stdout w' = stdout w
  | OpenFailed =>
      disk w' = disk w /\ stdout w' = stdout w ++ [WarnSaveState IOError]
  | Torn =>
      disk w' = Some Malformed /\ stdout w' = stdout w ++ [WarnSaveState IOError]
  end.
Proof.
  unfold_m. cbn. destruct (open_write E (writes w)); cbn; auto.
Qed.

Lemma mark_ticket_synced_set st k w :
  synced_tickets (fst (mark_ticket_synced E st k w)) = {[k]} ∪ synced_tickets st.
Proof.
  unfold_m. cbn. destruct (open_write E (writes w)); reflexivity.
Qed.

Lemma mark_ticket_synced_world st k w :
  snd (mark_ticket_synced E st k w) =
  snd (_save_state E {| synced_tickets := {[k]} ∪ synced_tickets st |} w).
Proof.
  unfold mark_ticket_synced, bind, ret.
  destruct (_save_state E _ w); reflexivity.
Qed.

Lemma remove_ticket_set st k w :
  synced_tickets (fst (remove_ticket E st k w)) = synced_tickets st ∖ {[k]}.
Proof.
  unfold_m. cbn. destruct (open_write E (writes w)); reflexivity.
Qed.

Lemma mark_all_set ks : forall st w,
  synced_tickets (fst (mark_all E ks st w)) = list_to_set ks ∪ synced_tickets st.
Proof.
  induction ks as [|k ks IH]; intros st w; cbn [mark_all].
  - unfold ret; cbn. set_solver.
  - unfold bind. destruct (mark_ticket_synced E st k w) as [st1 w1] eqn:Hm.
    rewrite IH. assert (H := mark_ticket_synced_set st k w).
    rewrite Hm in H; cbn in H. rewrite H. cbn. set_solver.
Qed.

(** What [_load_state] does when the file is there, by its content. *)
Lemma load_state_existing f w :
  disk w = Some f ->
  _load_state E w =
  match f with
  | Data d => (list_to_set (default [] (d_synced_tickets d)), w)
  | Malformed => (∅, add_stdout (WarnLoadState JSONDecodeError) w)
  | Unreadable => (∅, add_stdout (WarnLoadState IOError) w)
  end.
Proof.
  intros Hd. unfold _load_state, os_path_exists, json_load, bind, ret, print.
  destruct w; cbn in *; subst. destruct f; reflexivity.
Qed.

(** What [_load_state] does when there is no file: it tries to create an
    empty one and returns the empty set whatever comes of it. *)
Lemma load_state_missing w :
  disk w = None ->
  fst (_load_state E w) = ∅ /\
  (disk (snd (_load_state E w)) = None \/
   disk (snd (_load_state E w)) = Some Malformed) /\
  writes (snd (_load_state E w)) = S (writes w).
Proof.
  intros Hd. unfold _load_state, os_path_exists, write_file, bind, ret, print.
  destruct w; cbn in *; subst. destruct (open_write E _); cbn; auto.
Qed.

Lemma get_sync_stats_existing f w :
  disk w = Some f ->
  get_sync_stats w =
  match f with
  | Data d =>
      (<["total_synced" :=
           PInt (Z.of_nat (length (default [] (d_synced_tickets d))))]>
       (<["last_sync" := PStr (default "Never" (d_last_sync d))]>
        (<["synced_tickets" := PList (default [] (d_synced_tickets d))]> ∅)), w)
  | Malformed => (∅, add_stdout (WarnLoadStats JSONDecodeError) w)
  | Unreadable => (∅, add_stdout (WarnLoadStats IOError) w)
  end.
Proof.
  intros Hd. unfold get_sync_stats, os_path_exists, json_load, bind, ret, print.
  destruct w; cbn in *; subst. destruct f; reflexivity.
Qed.

End Ledger.

(** ** One pass of the second loop *)

Section Loop.

Variable E : Env.

Lemma save_state_stdout st w :
  exists extra,
    stdout (snd (_save_state E st w)) = stdout w ++ extra /\
    List.filter is_failure extra = [].
Proof.
  destruct (save_state_world E st w) as (_ & _ & _ & H).
  destruct (open_write E (writes w)); destruct H as [_ H].
  - exists []. rewrite H, app_nil_r. auto.
  - exists [WarnSaveState IOError]. auto.
  - exists [WarnSaveState IOError]. auto.
Qed.

Lemma launches_cons i l :
  launches E (i :: l) =
  match ticket_url E i with
  | Some url => url :: launches E l
  | None => launches E l
  end.
Proof. unfold launches. cbn. destruct (ticket_url E i); reflexivity. Qed.

Lemma launches_app l1 l2 : launches E (l1 ++ l2) = launches E l1 ++ launches E l2.
Proof.
  induction l1 as [|i l1 IH]; [reflexivity|].
  rewrite <- app_comm_cons, !launches_cons, IH.
  destruct (ticket_url E i); reflexivity.
Qed.

Lemma ticket_url_none i :
  ticket_url E i = None <-> exists e, format_ticket_notes i = Raise e.
Proof.
  unfold ticket_url. destruct (format_ticket_notes i) as [notes|e]; split.
  - discriminate.
  - intros [e He]. discriminate He.
  - intros _. exists e. reflexivity.
  - reflexivity.
Qed.

(** A ticket whose notes cannot be built: the exception is printed and
    nothing else happens. *)
Lemma sync_ticket_unformatted u i st n w e :
  format_ticket_notes i = Raise e ->
  sync_ticket E u i st n w = ((st, n), add_stdout (MsgError (key i) e) w).
Proof.
  intros He. unfold sync_ticket. rewrite He. reflexivity.
Qed.

Lemma sync_ticket_eq u i st n w url :
  ticket_url E i = Some url ->
  sync_ticket E u i st n w =
  let w1 := add_opened url w in
  match subprocess_run E (length (opened w)) url with
  | Ret _ =>
      let w2 :=
        add_stdout (MsgDone (action_label u (is_ticket_synced st (key i)))
                            (key i) (summary i)) w1 in
      let r := mark_ticket_synced E st (key i) w2 in
      ((fst r, S n), snd r)
  | Raise CalledProcessError =>
      ((st, n),
       add_stdout (MsgFailed (key i)) (add_stdout (ErrAddTodo CalledProcessError) w1))
  | Raise e => ((st, n), add_stdout (MsgError (key i) e) w1)
  end.
Proof.
  unfold ticket_url, sync_ticket.
  destruct (format_ticket_notes i) as [notes|e0]; [|discriminate].
  intros Hu. injection Hu as <-.
  unfold add_todo, run_open, bind, ret, print.
  destruct (subprocess_run E _ _) as [[]|e].
  - cbn. destruct (mark_ticket_synced E st (key i) _); reflexivity.
  - destruct e; reflexivity.
Qed.

(** The effect of the loop body on one ticket. *)
Lemma sync_ticket_step u i st n w :
  let r := sync_ticket E u i st n w in
  match ticket_url E i with
  | None =>
      fst r = (st, n) /\
      opened (snd r) = opened w /\
      exists e,
        format_ticket_notes i = Raise e /\
        snd r = add_stdout (MsgError (key i) e) w
  | Some url =>
      opened (snd r) = opened w ++ [url] /\
      exists out,
        stdout (snd r) = stdout w ++ out /\
        match subprocess_run E (length (opened w)) url with
        | Ret _ =>
            synced_tickets (fst (fst r)) = {[key i]} ∪ synced_tickets st /\
            snd (fst r) = S n /\
            List.filter is_failure out = [] /\
            In (MsgDone (action_label u (is_ticket_synced st (key i)))
                        (key i) (summary i)) out
        | Raise e =>
            fst r = (st, n) /\
            length (List.filter is_failure out) = 1 /\
            exists pre post, out = pre ++ failure_report (key i) e ++ post
        end
  end.
Proof.
  cbv zeta. destruct (ticket_url E i) as [url|] eqn:Hu.
  - rewrite (sync_ticket_eq u i st n w url Hu). cbv zeta.
    destruct (subprocess_run E _ _) as [[]|e].
    + cbn [fst snd]. rewrite mark_ticket_synced_world, mark_ticket_synced_set.
      set (w2 := add_stdout _ _).
      destruct (save_state_world E
                  {| synced_tickets := {[key i]} ∪ synced_tickets st |} w2)
        as (Ho & _).
      destruct (save_state_stdout
                  {| synced_tickets := {[key i]} ∪ synced_tickets st |} w2)
        as (extra & Hs & Hf).
      split; [rewrite Ho; reflexivity|].
      exists (MsgDone (action_label u (is_ticket_synced st (key i))) (key i) (summary i)
              :: extra).
      rewrite Hs. subst w2. cbn [stdout add_stdout add_opened].
      rewrite <- app_assoc. cbn. repeat split; auto.
    + destruct e; cbn [fst snd stdout opened add_stdout add_opened];
        (split; [reflexivity|]);
        try (eexists [MsgError (key i) _]; repeat split; auto;
             exists [], []; reflexivity).
      exists [ErrAddTodo CalledProcessError; MsgFailed (key i)].
      rewrite <- app_assoc. repeat split; auto.
      exists [], []. reflexivity.
  - apply ticket_url_none in Hu. destruct Hu as [e He].
    rewrite (sync_ticket_unformatted u i st n w e He). cbn [fst snd].
    split; [reflexivity|]. split; [reflexivity|].
    exists e. auto.
Qed.

(** The second loop: the ledger gains the keys of the tickets whose launch
    succeeded and no other; every ticket whose notes can be built is
    launched, in order, whatever became of the tickets before it; every
    failure is printed. *)
Lemma sync_loop_spec u l : forall st n w,
  let r := sync_loop E u l st n w in
  let ok := sink_ok E (length (opened w)) l in
  synced_tickets (fst (fst r)) = list_to_set (map key ok) ∪ synced_tickets st /\
  snd (fst r) = n + length ok /\
  opened (snd r) = opened w ++ launches E l /\
  exists out,
    stdout (snd r) = stdout w ++ out /\
    length (List.filter is_failure out) + length ok = length l /\
    (forall l1 i l2 url e,
        l = l1 ++ i :: l2 ->
        ticket_url E i = Some url ->
        subprocess_run E (length (opened w) + length (launches E l1)) url = Raise e ->
        exists pre post, out = pre ++ failure_report (key i) e ++ post) /\
    (forall i e,
        In i l -> format_ticket_notes i = Raise e -> In (MsgError (key i) e) out).
Proof.
  induction l as [|i l IH]; intros st n w; cbv zeta.
  - cbn. rewrite app_nil_r. repeat split; [set_solver | lia |].
    exists []. rewrite app_nil_r.
    split; [reflexivity|]. split; [reflexivity|]. split.
    + intros l1 j l2 url e Hl. destruct l1; discriminate Hl.
    + intros j e [].
  - cbn [sync_loop]. unfold bind.
    destruct (sync_ticket E u i st n w) as [[st1 n1] w1] eqn:Hst.
    pose proof (sync_ticket_step u i st n w) as Hstep.
    rewrite Hst in Hstep. cbn [fst snd] in Hstep.
    cbn [fst snd sink_ok]. rewrite launches_cons.
    destruct (ticket_url E i) as [url|] eqn:Hu.
    + destruct Hstep as (Ho1 & out1 & Hs1 & Hcase).
      assert (Hlen : length (opened w1) = S (length (opened w)))
        by (rewrite Ho1, length_app; cbn; lia).
      specialize (IH st1 n1 w1). cbv zeta in IH. rewrite Hlen in IH.
      destruct IH as (IHs & IHn & IHo & out2 & IHout & IHcnt & IHfail & IHfmt).
      assert (Hfmt : forall j e,
                 In j (i :: l) -> format_ticket_notes j = Raise e ->
                 In (MsgError (key j) e) (out1 ++ out2)).
      { intros j e [<-|Hj] He.
        - assert (Hn : ticket_url E i = None)
            by (apply ticket_url_none; exists e; exact He).
          congruence.
        - apply in_or_app. right. apply (IHfmt j e Hj He). }
      destruct (subprocess_run E (length (opened w)) url) as [[]|e0] eqn:Hrun.
      * destruct Hcase as (Hset & Hn1 & Hf & _).
        split; [rewrite IHs, Hset; cbn; set_solver|].
        split; [rewrite IHn, Hn1; cbn; lia|].
        split; [rewrite IHo, Ho1, <- app_assoc; reflexivity|].
        exists (out1 ++ out2).
        split; [rewrite IHout, Hs1, app_assoc; reflexivity|].
        split; [rewrite List.filter_app, length_app, Hf; cbn in *; lia|].
        split; [|exact Hfmt].
        intros [|j l1] k l2 url' e Hl Hk Hr; cbn in Hl; injection Hl as Hj Hl.
        -- subst k. rewrite Hu in Hk. injection Hk as <-.
           cbn in Hr. rewrite Nat.add_0_r in Hr. congruence.
        -- subst j. rewrite launches_cons, Hu in Hr. cbn [length] in Hr.
           rewrite <- Nat.add_succ_comm in Hr.
           destruct (IHfail l1 k l2 url' e Hl Hk Hr) as (pre & post & ->).
           exists (out1 ++ pre), post. rewrite app_assoc. reflexivity.
      * destruct Hcase as (Hfst & Hf & pre0 & post0 & Hout1).
        injection Hfst as -> ->.
        split; [rewrite IHs; reflexivity|].
        split; [rewrite IHn; reflexivity|].
        split; [rewrite IHo, Ho1, <- app_assoc; reflexivity|].
        exists (out1 ++ out2).
        split; [rewrite IHout, Hs1, app_assoc; reflexivity|].
        split; [rewrite List.filter_app, length_app, Hf; cbn in *; lia|].
        split; [|exact Hfmt].
        intros [|j l1] k l2 url' e Hl Hk Hr; cbn in Hl; injection Hl as Hj Hl.
        -- subst k. rewrite Hu in Hk. injection Hk as <-.
           cbn in Hr. rewrite Nat.add_0_r in Hr.
           assert (e = e0) as -> by congruence.
           exists pre0, (post0 ++ out2). rewrite Hout1, <- !app_assoc. reflexivity.
        -- subst j. rewrite launches_cons, Hu in Hr. cbn [length] in Hr.
           rewrite <- Nat.add_succ_comm in Hr.
           destruct (IHfail l1 k l2 url' e Hl Hk Hr) as (pre & post & ->).
           exists (out1 ++ pre), post. rewrite app_assoc. reflexivity.
    + destruct Hstep as (Hfst & Ho1 & e0 & He0 & Hw1).
      injection Hfst as -> ->.
      specialize (IH st n w1). cbv zeta in IH. rewrite Ho1 in IH.
      destruct IH as (IHs & IHn & IHo & out2 & IHout & IHcnt & IHfail & IHfmt).
      split; [exact IHs|]. split; [exact IHn|]. split; [exact IHo|].
      exists (MsgError (key i) e0 :: out2).
      split; [rewrite IHout, Hw1; cbn [stdout add_stdout];
              rewrite <- app_assoc; reflexivity|].
      split; [cbn; lia|].
      split.
      * intros [|j l1] k l2 url' e Hl Hk Hr; cbn in Hl; injection Hl as Hj Hl.
        -- subst k. congruence.
        -- subst j. rewrite launches_cons, Hu in Hr.
           destruct (IHfail l1 k l2 url' e Hl Hk Hr) as (pre & post & ->).
           exists (MsgError (key i) e0 :: pre), post. reflexivity.
      * intros j e [<-|Hj] He.
        -- left. congruence.
        -- right. apply (IHfmt j e Hj He).
Qed.

End Loop.

(** The first loop keeps the selected tickets, in order, and counts the
    others. *)
Lemma select_tickets_eq st f u issues :
  select_tickets st f u issues =
  (kept st f u issues,
   length (List.filter
             (fun i => negb (selected f u (is_ticket_synced st (key i)))) issues)).
Proof.
  unfold select_tickets, kept.
  set (step := fun '(tickets_to_sync, skipped_count) i => _).
  assert (H : forall l acc c,
             fold_left step l (acc, c) =
             (acc ++ List.filter
                       (fun i => selected f u (is_ticket_synced st (key i))) l,
              c + length (List.filter
                            (fun i => negb (selected f u (is_ticket_synced st (key i))))
                            l))).
  { induction l as [|i l IH]; intros acc c; cbn [fold_left List.filter].
    - rewrite app_nil_r. f_equal. cbn. lia.
    - unfold step at 2.
      destruct (selected f u (is_ticket_synced st (key i))); cbn [negb];
        rewrite IH.
      + rewrite <- app_assoc. reflexivity.
      + f_equal. cbn. lia. }
  rewrite H. reflexivity.
Qed.

Lemma kept_length st f u issues :
  length (kept st f u issues) +
  length (List.filter
            (fun i => negb (selected f u (is_ticket_synced st (key i)))) issues) =
  length issues.
Proof. unfold kept. apply List.filter_length. Qed.

(** ** One run of [sync_tickets] *)

Lemma quiet_refl w : quiet w w.
Proof.
  repeat split. exists []. rewrite app_nil_r. auto.
Qed.

Lemma quiet_trans w1 w2 w3 : quiet w1 w2 -> quiet w2 w3 -> quiet w1 w3.
Proof.
  intros (Hd1 & Ho1 & out1 & Hs1 & Hf1) (Hd2 & Ho2 & out2 & Hs2 & Hf2).
  repeat split; [congruence | congruence |].
  exists (out1 ++ out2). rewrite Hs2, Hs1, <- app_assoc, List.filter_app, Hf1, Hf2.
  auto.
Qed.

Lemma quiet_print m w : is_failure m = false -> quiet w (add_stdout m w).
Proof.
  intros Hm. repeat split. exists [m]. cbn. rewrite Hm. auto.
Qed.

Lemma get_sync_stats_quiet w : quiet w (snd (get_sync_stats w)).
Proof.
  destruct (disk w) as [f|] eqn:Hd.
  - rewrite (get_sync_stats_existing f w Hd).
    destruct f; cbn [snd]; auto using quiet_refl, quiet_print.
  - unfold get_sync_stats, os_path_exists, bind, ret. rewrite Hd.
    apply quiet_refl.
Qed.

Lemma fetch_issues_spec E jql w :
  fst (fetch_issues E jql w) = fetched_issues E jql /\
  quiet w (snd (fetch_issues E jql w)).
Proof.
  unfold fetch_issues, fetched_issues, get_tickets_by_jql, get_assigned_tickets.
  destruct (truthy jql); destruct (search_issues E _ _);
    unfold bind, ret, print; cbn; auto using quiet_refl, quiet_print.
Qed.

(** The run, step by step, with the worlds it goes through. *)
Lemma sync_tickets_unfold E self jql pn f u w :
  sync_tickets E self jql pn f u w =
  let w1 := add_stdout MsgStarting w in
  let stats := fst (get_sync_stats w1) in
  let w2 := snd (get_sync_stats w1) in
  let w3 :=
    if bool_decide (stats = ∅) then w2
    else add_stdout (MsgPreviousStats (default (PInt 0) (stats !! "total_synced"))
                                      (default (PStr "Never") (stats !! "last_sync")))
           w2 in
  let issues := fetched_issues E jql in
  let w4 := snd (fetch_issues E jql w3) in
  match issues with
  | [] => ((None, self), add_stdout MsgNoTickets w4)
  | _ :: _ =>
      let w5 := add_stdout (MsgFound (length issues)) w4 in
      let sel := kept (state self) f u issues in
      let skipped_count := length issues - length sel in
      let w6 :=
        if 0 <? skipped_count then add_stdout (MsgSkipping skipped_count) w5
        else w5 in
      match sel with
      | [] => ((None, self), add_stdout MsgNoNew w6)
      | _ :: _ =>
          let w7 := add_stdout (MsgSyncing (length sel)) w6 in
          let r := sync_loop E u sel (state self) 0 w7 in
          let w8 := add_stdout (MsgCompleted (snd (fst r)) (length sel)) (snd r) in
          let final_stats := fst (get_sync_stats w8) in
          ((None, {| state := fst (fst r) |}),
           add_stdout
             (MsgTotalEver (default (PInt 0) (final_stats !! "total_synced")))
             (snd (get_sync_stats w8)))
      end
  end.
Proof.
  cbv zeta. unfold sync_tickets.
  unfold bind at 1. unfold print at 1.
  unfold bind at 1.
  destruct (get_sync_stats (add_stdout MsgStarting w)) as [stats w2].
  cbn [fst snd].
  unfold bind at 1.
  set (w3 := if bool_decide (stats = ∅) then w2 else _).
  assert (Hw3 : (if bool_decide (stats = ∅) then ret tt
                 else print (MsgPreviousStats
                               (default (PInt 0) (stats !! "total_synced"))
                               (default (PStr "Never") (stats !! "last_sync")))) w2
                = (tt, w3))
    by (subst w3; destruct (bool_decide (stats = ∅)); reflexivity).
  rewrite Hw3. unfold bind at 1.
  destruct (fetch_issues_spec E jql w3) as [Hf _].
  destruct (fetch_issues E jql w3) as [issues w4]. cbn [fst snd] in *. subst issues.
  destruct (fetched_issues E jql) as [|i0 issues0] eqn:Hfe; [reflexivity|].
  unfold bind at 1. unfold print at 1.
  rewrite select_tickets_eq.
  set (issues := i0 :: issues0).
  assert (Hsk : length (List.filter
                          (fun i => negb (selected f u
                                            (is_ticket_synced (state self) (key i))))
                          issues)
                = length issues - length (kept (state self) f u issues))
    by (pose proof (kept_length (state self) f u issues); lia).
  rewrite Hsk.
  unfold bind at 1.
  set (sk := length issues - length (kept (state self) f u issues)).
  set (w5 := add_stdout (MsgFound (length issues)) w4).
  assert (Hw6 : (if 0 <? sk then print (MsgSkipping sk) else ret tt) w5
                = (tt, if 0 <? sk then add_stdout (MsgSkipping sk) w5 else w5))
    by (destruct (0 <? sk); reflexivity).
  rewrite Hw6.
  destruct (kept (state self) f u issues) as [|s0 sel0]; [reflexivity|].
  unfold bind at 1. unfold print at 1. unfold bind at 1.
  destruct (sync_loop E u (s0 :: sel0) (state self) 0 _) as [[st1 n1] w7'].
  cbn [fst snd]. unfold bind at 1. unfold print at 1. unfold bind at 1.
  destruct (get_sync_stats _) as [fs w9]. reflexivity.
Qed.

Lemma in_app_mid {A} (pre post : list A) (x : A) : In x (pre ++ x :: post).
Proof. apply in_or_app. right. left. reflexivity. Qed.

(** What one run does: it returns [None]; the ledger gains the keys of the
    selected tickets whose launch succeeded; every selected ticket whose
    request can be built is launched, in fetch order; the counts and the
    failures are printed. *)
Lemma sync_tickets_spec E self jql pn f u w :
  let issues := fetched_issues E jql in
  let sel := kept (state self) f u issues in
  let ok := sink_ok E (length (opened w)) sel in
  let r := sync_tickets E self jql pn f u w in
  fst (fst r) = None /\
  synced_tickets (state (snd (fst r))) =
    list_to_set (map key ok) ∪ synced_tickets (state self) /\
  opened (snd r) = opened w ++ launches E sel /\
  (sel = [] -> snd (fst r) = self /\ disk (snd r) = disk w) /\
  exists out,
    stdout (snd r) = stdout w ++ out /\
    length (List.filter is_failure out) + length ok = length sel /\
    (issues = [] -> In MsgNoTickets out) /\
    (issues <> [] -> In (MsgFound (length issues)) out) /\
    (length sel < length issues ->
     In (MsgSkipping (length issues - length sel)) out) /\
    (issues <> [] -> sel = [] -> In MsgNoNew out) /\
    (sel <> [] -> In (MsgCompleted (length ok) (length sel)) out) /\
    (forall l1 i l2 url e,
        sel = l1 ++ i :: l2 ->
        ticket_url E i = Some url ->
        subprocess_run E (length (opened w) + length (launches E l1)) url = Raise e ->
        exists pre post, out = pre ++ failure_report (key i) e ++ post) /\
    (forall i e,
        In i sel -> format_ticket_notes i = Raise e -> In (MsgError (key i) e) out).
Proof.
  cbv zeta. rewrite sync_tickets_unfold. cbv zeta.
  set (w1 := add_stdout MsgStarting w).
  set (stats := fst (get_sync_stats w1)).
  set (w2 := snd (get_sync_stats w1)).
  set (w3 := if bool_decide (stats = ∅) then w2 else _).
  set (w4 := snd (fetch_issues E jql w3)).
  assert (Hq : quiet w w4).
  { apply quiet_trans with w1; [apply quiet_print; reflexivity|].
    apply quiet_trans with w2; [apply get_sync_stats_quiet|].
    apply quiet_trans with w3; [|apply fetch_issues_spec].
    subst w3. destruct (bool_decide (stats = ∅));
      [apply quiet_refl | apply quiet_print; reflexivity]. }
  destruct Hq as (Hd4 & Ho4 & out4 & Hs4 & Hf4).
  clearbody w4. clear w1 stats w2 w3.
  destruct (fetched_issues E jql) as [|i0 issues0] eqn:Hfe.
  - cbn [fst snd kept List.filter sink_ok map length add_stdout stdout opened disk].
    change (launches E []) with (@nil string).
    rewrite app_nil_r. repeat split; auto; [set_solver|].
    exists (out4 ++ [MsgNoTickets]).
    rewrite Hs4, <- app_assoc, List.filter_app, Hf4. cbn.
    split; [reflexivity|]. split; [reflexivity|].
    split; [intros _; apply in_app_mid|].
    split; [intros Hne; congruence|].
    split; [intros Hlt; lia|].
    split; [intros Hne; congruence|].
    split; [intros Hne; congruence|].
    split.
    + intros l1 i l2 url e Hl. destruct l1; discriminate Hl.
    + intros i e [].
  - set (issues := i0 :: issues0).
    set (sk := length issues - length (kept (state self) f u issues)).
    set (w5 := add_stdout (MsgFound (length issues)) w4).
    set (w6 := if 0 <? sk then add_stdout (MsgSkipping sk) w5 else w5).
    assert (Hw6 : disk w6 = disk w /\ opened w6 = opened w /\
                  exists out6, stdout w6 = stdout w ++ out6 /\
                    List.filter is_failure out6 = [] /\
                    In (MsgFound (length issues)) out6 /\
                    (0 < sk -> In (MsgSkipping sk) out6)).
    { subst w6 w5. clearbody sk issues.
      destruct (Nat.ltb_spec 0 sk) as [Hlt|Hge];
        cbn [disk opened stdout add_stdout]; (split; [auto|split; [auto|]]).
      - exists (out4 ++ [MsgFound (length issues); MsgSkipping sk]).
        rewrite Hs4, <- !app_assoc, List.filter_app, Hf4. cbn.
        repeat split; auto.
        + apply in_app_mid.
        + intros _. apply in_or_app. right. right. left. reflexivity.
      - exists (out4 ++ [MsgFound (length issues)]).
        rewrite Hs4, <- !app_assoc, List.filter_app, Hf4. cbn.
        repeat split; auto.
        + apply in_app_mid.
        + intros Hlt. lia. }
    destruct Hw6 as (Hd6 & Ho6 & out6 & Hs6 & Hf6 & Hfound & Hskip).
    clearbody w6. clear w5.
    destruct (kept (state self) f u issues) as [|s0 sel0] eqn:Hk.
    + cbn [fst snd sink_ok map length add_stdout stdout opened disk].
      change (launches E []) with (@nil string).
      rewrite app_nil_r. repeat split; auto; [set_solver|].
      exists (out6 ++ [MsgNoNew]).
      rewrite Hs6, <- app_assoc, List.filter_app, Hf6. cbn.
      split; [reflexivity|]. split; [reflexivity|].
      split; [intros Hnil; discriminate Hnil|].
      split; [intros _; apply in_or_app; left; exact Hfound|].
      split.
      { intros Hlt. apply in_or_app. left. apply Hskip.
        subst sk issues. cbn [length]. lia. }
      split; [intros _ _; apply in_app_mid|].
      split; [intros Hne; congruence|].
      split.
      * intros l1 i l2 url e Hl. destruct l1; discriminate Hl.
      * intros i e [].
    + set (sel := s0 :: sel0) in *.
      set (w7 := add_stdout (MsgSyncing (length sel)) w6).
      pose proof (sync_loop_spec E u sel (state self) 0 w7) as Hloop.
      cbv zeta in Hloop.
      set (r := sync_loop E u sel (state self) 0 w7) in *.
      replace (opened w7) with (opened w) in Hloop by (subst w7; cbn; congruence).
      destruct Hloop as (Hset & Hn & Hop & outL & HsL & HfL & HfailL & HfmtL).
      set (w8 := add_stdout (MsgCompleted (snd (fst r)) (length sel)) (snd r)).
      pose proof (get_sync_stats_quiet w8) as (Hd9 & Ho9 & out9 & Hs9 & Hf9).
      cbn [fst snd state add_stdout stdout opened disk].
      split; [reflexivity|]. split; [exact Hset|].
      split; [rewrite Ho9; subst w8; cbn [opened add_stdout]; exact Hop|].
      split; [intros Hnil; discriminate Hnil|].
      exists (out6 ++ [MsgSyncing (length sel)] ++ outL
              ++ [MsgCompleted (snd (fst r)) (length sel)] ++ out9
              ++ [MsgTotalEver
                    (default (PInt 0) (fst (get_sync_stats w8) !! "total_synced"))]).
      split.
      { rewrite Hs9. subst w8. cbn [stdout add_stdout]. rewrite HsL.
        subst w7. cbn [stdout add_stdout]. rewrite Hs6.
        rewrite <- !app_assoc. reflexivity. }
      split.
      { rewrite !List.filter_app, !length_app, Hf6, Hf9. cbn in *. lia. }
      split; [intros Hnil; discriminate Hnil|].
      split; [intros _; apply in_or_app; left; exact Hfound|].
      split.
      { intros Hlt. apply in_or_app. left. apply Hskip. subst sk. lia. }
      split; [intros _ Hnil; discriminate Hnil|].
      split.
      { intros _. rewrite Hn. cbn [Nat.add].
        rewrite !in_app_iff. cbn [In]. auto 10. }
      split.
      * intros l1 i l2 url e Hl Hu Hr.
        destruct (HfailL l1 i l2 url e Hl Hu Hr) as (pre & post & ->).
        exists (out6 ++ [MsgSyncing (length sel)] ++ pre).
        eexists. rewrite <- !app_assoc. reflexivity.
      * intros i e Hi He. pose proof (HfmtL i e Hi He) as Hin.
        rewrite !in_app_iff. cbn [In]. auto 10.
Qed.

(** ** The ledger across a restart *)

(** After at least one marking, all writes having succeeded, the file holds
    the whole in-memory set. *)
Lemma mark_all_disk E ks : forall st w,
  ks <> [] ->
  (forall n, writes w <= n < writes w + length ks -> open_write E n = Written) ->
  exists t,
    disk (snd (mark_all E ks st w)) =
    Some (Data {| d_synced_tickets :=
                    Some (elements (synced_tickets (fst (mark_all E ks st w))));
                  d_last_sync := Some t |}).
Proof.
  induction ks as [|k ks IH]; intros st w Hne Hw; [congruence|].
  cbn [mark_all]. unfold bind.
  destruct (mark_ticket_synced E st k w) as [st1 w1] eqn:Hm.
  pose proof (mark_ticket_synced_set E st k w) as Hset.
  pose proof (mark_ticket_synced_world E st k w) as Hwd.
  rewrite Hm in Hset, Hwd. cbn [fst snd] in Hset, Hwd.
  destruct (save_state_world E {| synced_tickets := {[k]} ∪ synced_tickets st |} w)
    as (_ & Hwr & _ & Hcase).
  rewrite <- Hwd in Hwr, Hcase.
  destruct ks as [|k' ks'].
  - cbn [mark_all]. unfold ret. cbn [fst snd].
    rewrite (Hw (writes w)) in Hcase by (cbn; lia).
    destruct Hcase as [Hdisk _]. cbn [synced_tickets] in Hdisk.
    exists (datetime_now E (clock w)). rewrite Hdisk, Hset. reflexivity.
  - apply IH; [discriminate|].
    intros n Hn. apply Hw. cbn [length] in *. lia.
Qed.

(** ** The notes of a ticket *)

Lemma append_assoc (a b c : string) : (a +:+ b) +:+ c = a +:+ (b +:+ c).
Proof.
  induction a as [|x a IH]; [reflexivity|].
  change (String x ((a +:+ b) +:+ c) = String x (a +:+ (b +:+ c))).
  f_equal. exact IH.
Qed.

Lemma append_nil_r (a : string) : a +:+ "" = a.
Proof.
  induction a as [|x a IH]; [reflexivity|].
  change (String x (a +:+ "") = String x a).
  f_equal. exact IH.
Qed.

(** [s[:n]] for [n <= len(s)] is a prefix of [s] of length [n]. *)
Lemma substring_prefix n : forall s,
  n <= String.length s ->
  String.length (substring 0 n s) = n /\
  exists rest, s = substring 0 n s +:+ rest.
Proof.
  induction n as [|n IH]; intros s Hn.
  - destruct s; split; eauto.
  - destruct s as [|c s]; cbn in Hn; [lia|].
    destruct (IH s) as [Hl [rest Hr]]; [lia|].
    change (substring 0 (S n) (String c s)) with (String c (substring 0 n s)).
    split; [cbn; congruence|]. exists rest.
    change (String c s = String c (substring 0 n s +:+ rest)). congruence.
Qed.

(** * The claims *)

(** C10. Marking or removing [x] leaves the membership of every other
    identifier [y] as it was, and marking an identifier that is already in
    the ledger leaves the membership set as it was. *)
Theorem ledger_frame E st x y w :
  x <> y ->
  is_ticket_synced (fst (mark_ticket_synced E st x w)) y = is_ticket_synced st y /\
  is_ticket_synced (fst (remove_ticket E st x w)) y = is_ticket_synced st y /\
  (is_ticket_synced st x = true ->
   synced_tickets (fst (mark_ticket_synced E st x w)) = synced_tickets st).
Proof.
  intros Hxy. unfold is_ticket_synced.
  rewrite mark_ticket_synced_set, remove_ticket_set.
  split; [apply bool_decide_ext; set_solver|].
  split; [apply bool_decide_ext; set_solver|].
  intros Hin. apply bool_decide_eq_true in Hin. set_solver.
Qed.

(** C7. [mark_ticket_synced] adds the identifier to the in-memory set and
    rewrites the file with the whole set and the current time; when the
    write fails a warning is printed and the in-memory set keeps the
    identifier, which stays in it through whatever the loop does next. *)
Theorem mark_synced_best_effort E st k w :
  let st' := fst (mark_ticket_synced E st k w) in
  let w' := snd (mark_ticket_synced E st k w) in
  synced_tickets st' = {[k]} ∪ synced_tickets st /\
  writes w' = S (writes w) /\
  match open_write E (writes w) with
  | Written =>
      disk w' =
        Some (Data {| d_synced_tickets := Some (elements (synced_tickets st'));
                      d_last_sync := Some (datetime_now E (clock w)) |}) /\
      stdout w' = stdout w
  | OpenFailed =>
      disk w' = disk w /\ stdout w' = stdout w ++ [WarnSaveState IOError]
  | Torn =>
      disk w' = Some Malformed /\ stdout w' = stdout w ++ [WarnSaveState IOError]
  end /\
  is_ticket_synced st' k = true /\
  (forall u l n w1,
      is_ticket_synced (fst (fst (sync_loop E u l st' n w1))) k = true).
Proof.
  cbv zeta. rewrite mark_ticket_synced_world, mark_ticket_synced_set.
  destruct (save_state_world E {| synced_tickets := {[k]} ∪ synced_tickets st |} w)
    as (_ & Hwr & _ & Hcase).
  split; [reflexivity|]. split; [exact Hwr|]. split; [exact Hcase|].
  split.
  - apply is_ticket_synced_true. rewrite mark_ticket_synced_set. set_solver.
  - intros u l n w1. apply is_ticket_synced_true.
    destruct (sync_loop_spec E u l (fst (mark_ticket_synced E st k w)) n w1)
      as (Hset & _).
    rewrite Hset, mark_ticket_synced_set. set_solver.
Qed.

(** On a file of one of the kinds of [file], [load_found] is [_load_state]. *)
Lemma load_found_known E f w :
  disk w = Some f ->
  load_found (Known f) w = (Ret (fst (_load_state E w)), snd (_load_state E w)).
Proof.
  intros Hd. rewrite (load_state_existing E f w Hd).
  unfold load_found. destruct f; reflexivity.
Qed.


(** C5, as the program has it. When reading the state file fails with an
    exception that the handler names, [JSONDecodeError] or [IOError], the
    load returns the empty set, prints one warning and leaves the file
    alone; [get_sync_stats] then returns the empty dict, in which there is
    no [total_synced], and [get_sync_status] prints the default 0. *)
Theorem unloadable_state_file E self s e w :
  load_body s = Raise e ->
  handled e = true ->
  (forall f, s = Known f -> disk w = Some f) ->
  let w1 := add_stdout (WarnLoadState e) w in
  load_found s w = (Ret ∅, w1) /\
  _load_state E w = (∅, w1) /\
  disk w1 = disk w /\
  get_sync_stats w1 = (∅, add_stdout (WarnLoadStats e) w1) /\
  fst (get_sync_stats w1) !! "total_synced" = None /\
  In (MsgStatusTotal (PInt 0)) (stdout (snd (get_sync_status self w1))).
Proof.
  intros Hb Hh Hw. cbv zeta.
  destruct s as [f|k].
  - specialize (Hw f eq_refl).
    assert (Hd1 : disk (add_stdout (WarnLoadState e) w) = Some f) by exact Hw.
    unfold load_found. rewrite Hb, Hh.
    rewrite (load_state_existing E f w Hw).
    unfold get_sync_status, bind, print.
    rewrite (get_sync_stats_existing _ _ Hd1).
    destruct f as [| |d]; cbn in Hb; try discriminate Hb;
      injection Hb as <-; cbn [fst snd];
      (split; [reflexivity|]); (split; [reflexivity|]); (split; [reflexivity|]);
      (split; [reflexivity|]); (split; [apply lookup_empty|]);
      rewrite lookup_empty; cbn; rewrite !in_app_iff; cbn; auto 10.
  - destruct k; cbn in Hb; injection Hb as <-; discriminate Hh.
Qed.

(** C8. Starting from a ledger that loads empty, after any sequence of
    markings whose writes all succeed, loading the file again gives exactly
    the set of the marked identifiers. *)
Theorem ledger_round_trip E ks w0 :
  let st0 := fst (StateManager_init E w0) in
  let w1 := snd (StateManager_init E w0) in
  synced_tickets st0 = ∅ ->
  (forall n, writes w1 <= n < writes w1 + length ks -> open_write E n = Written) ->
  synced_tickets (fst (StateManager_init E (snd (mark_all E ks st0 w1)))) =
  list_to_set ks.
Proof.
  cbv zeta. intros Hempty Hw.
  assert (Hinit : forall w,
             synced_tickets (fst (StateManager_init E w)) = fst (_load_state E w) /\
             snd (StateManager_init E w) = snd (_load_state E w)).
  { intros w. unfold StateManager_init, bind, ret.
    destruct (_load_state E w); auto. }
  destruct (Hinit w0) as [Hs0 Hw0].
  destruct ks as [|k ks].
  - cbn [mark_all]. unfold ret. cbn [snd list_to_set].
    destruct (Hinit (snd (StateManager_init E w0))) as [Hs1 _]. rewrite Hs1, Hw0.
    destruct (disk w0) as [f|] eqn:Hd.
    + rewrite (load_state_existing E f w0 Hd) in *.
      destruct f; cbn [fst snd] in *.
      * rewrite (load_state_existing E Malformed) by exact Hd. reflexivity.
      * rewrite (load_state_existing E Unreadable) by exact Hd. reflexivity.
      * rewrite (load_state_existing E (Data d)) by exact Hd. cbn. congruence.
    + destruct (load_state_missing E w0 Hd) as (_ & [Hn|Hm] & _).
      * destruct (load_state_missing E _ Hn) as (He & _). exact He.
      * rewrite (load_state_existing E Malformed _ Hm). reflexivity.
  - set (st0 := fst (StateManager_init E w0)) in *.
    set (w1 := snd (StateManager_init E w0)) in *.
    destruct (mark_all_disk E (k :: ks) st0 w1) as [t Hdisk]; [discriminate|exact Hw|].
    destruct (Hinit (snd (mark_all E (k :: ks) st0 w1))) as [Hs1 _]. rewrite Hs1.
    rewrite (load_state_existing E _ _ Hdisk). cbn [fst d_synced_tickets default].
    unfold id.
    rewrite list_to_set_elements_L, mark_all_set, Hempty. set_solver.
Qed.

(** X25. The notes, for every issue. Where the reporter attribute holds
    [None] building them raises. Otherwise they are the [**Ticket**] line, the
    [**URL**] line, a [**Reporter**] line when the issue has the reporter
    attribute, and, when it has the description attribute, a blank line,
    the [**Description**] heading and the body; a body of more than 500
    characters is cut to its first 500 characters followed by three dots,
    and a description attribute that holds [None] gives the body [None]. *)
Lemma notes_template i :
  match reporter i with
  | Some None => format_ticket_notes i = Raise AttributeError
  | r =>
      exists rep desc,
        format_ticket_notes i =
          Ret ("**Ticket** " +:+ key i +:+ nl +:+ "**URL** " +:+ permalink i
               +:+ rep +:+ desc) /\
        rep = match r with
              | Some (Some name) => nl +:+ "**Reporter** " +:+ name
              | _ => ""
              end /\
        match description i with
        | None => desc = ""
        | Some d =>
            exists body,
              desc = nl +:+ nl +:+ "**Description**" +:+ nl +:+ body /\
              match d with
              | None => body = "None"
              | Some s =>
                  (String.length s <= 500 -> body = s) /\
                  (500 < String.length s ->
                   exists p rest,
                     body = p +:+ "..." /\ String.length p = 500 /\ s = p +:+ rest)
              end
        end
  end.
Proof.
  assert (Hdesc : forall ds : option (option string),
             match ds with
             | None => "" = ""
             | Some d =>
                 exists body,
                   nl +:+ nl +:+ "**Description**" +:+ nl +:+ format_description d =
                   nl +:+ nl +:+ "**Description**" +:+ nl +:+ body /\
                   match d with
                   | None => body = "None"
                   | Some s =>
                       (String.length s <= 500 -> body = s) /\
                       (500 < String.length s ->
                        exists p rest,
                          body = p +:+ "..." /\ String.length p = 500 /\
                          s = p +:+ rest)
                   end
             end).
  { intros [d|]; [|reflexivity].
    exists (format_description d). split; [reflexivity|].
    destruct d as [s|]; [|reflexivity].
    unfold format_description.
    destruct (Nat.ltb_spec 500 (String.length s)) as [Hlt|Hge].
    - assert (Ht : truthy s = true) by (destruct s; [cbn in Hlt; lia | reflexivity]).
      rewrite Ht. cbn [andb]. split; [lia|]. intros _.
      destruct (substring_prefix 500 s) as [Hl [rest Hr]]; [lia|].
      exists (substring 0 500 s), rest. auto.
    - rewrite andb_false_r. split; [reflexivity | lia]. }
  destruct i as [k sm pl rp ds]. cbn [key permalink reporter description].
  specialize (Hdesc ds).
  destruct rp as [[name|]|].
  - eexists. exists (match ds with
                     | Some d =>
                         nl +:+ nl +:+ "**Description**" +:+ nl +:+ format_description d
                     | None => ""
                     end).
    split; [|split; [reflexivity|]].
    + unfold format_ticket_notes. cbn [key permalink reporter description
                                         reporter_displayName].
      destruct ds as [d|]; cbn [app join];
        rewrite ?append_assoc, ?append_nil_r; reflexivity.
    + destruct ds; exact Hdesc.
  - reflexivity.
  - eexists. exists (match ds with
                     | Some d =>
                         nl +:+ nl +:+ "**Description**" +:+ nl +:+ format_description d
                     | None => ""
                     end).
    split; [|split; [reflexivity|]].
    + unfold format_ticket_notes. cbn [key permalink reporter description].
      destruct ds as [d|]; cbn [app join];
        rewrite ?append_assoc, ?append_nil_r; reflexivity.
    + destruct ds; exact Hdesc.
Qed.

(** C6 does not hold of the program for an attribute that exists and holds
    [None]: with such a reporter building the notes raises, whatever the
    rest of the issue, and with such a description the notes carry the
    heading followed by the text [None]. *)
Theorem notes_none_fields k s p d :
  format_ticket_notes
    {| key := k; summary := s; permalink := p;
       reporter := Some None; description := d |} = Raise AttributeError /\
  format_ticket_notes
    {| key := k; summary := s; permalink := p;
       reporter := None; description := Some None |} =
  Ret ("**Ticket** " +:+ k +:+ nl +:+ "**URL** " +:+ p +:+ nl +:+ nl
       +:+ "**Description**" +:+ nl +:+ "None") /\
  nl = String (ascii_of_nat 10) EmptyString.
Proof.
  split; [reflexivity|]. split; [|reflexivity].
  unfold format_ticket_notes. cbn [key permalink reporter description app join
                                     format_description].
  rewrite ?append_assoc. reflexivity.
Qed.

(** ** Decisions and labels *)

Lemma decision_table f u s :
  decision f u s =
  if negb f && negb u && s then Skip
  else if u && s then Update else Create.
Proof. destruct f, u, s; reflexivity. Qed.

Lemma action_label_decision f u s : action_label u s = label_of (decision f u s).
Proof. destruct f, u, s; reflexivity. Qed.

Lemma kept_decision st f u issues :
  kept st f u issues =
  List.filter
    (fun i => negb (is_skip (decision f u (is_ticket_synced st (key i))))) issues.
Proof.
  unfold kept. apply List.filter_ext. intros i.
  destruct f, u, (is_ticket_synced st (key i)); reflexivity.
Qed.

Lemma sink_ok_all E l : forall n,
  (forall i, In i l -> ticket_url E i <> None) ->
  (forall p url, launches E l !! p = Some url ->
                 subprocess_run E (n + p) url = Ret tt) ->
  sink_ok E n l = l.
Proof.
  induction l as [|i l IH]; intros n Hfmt H; [reflexivity|].
  cbn [sink_ok]. rewrite launches_cons in H.
  destruct (ticket_url E i) as [url|] eqn:Hu;
    [|exfalso; apply (Hfmt i); [left; reflexivity | exact Hu]].
  pose proof (H 0 url eq_refl) as H0. rewrite Nat.add_0_r in H0.
  rewrite H0. f_equal. apply IH.
  - intros j Hj. apply Hfmt. right. exact Hj.
  - intros p url' Hl. rewrite Nat.add_succ_comm. apply H. exact Hl.
Qed.

Lemma sync_loop_stdout_mono E u l st n w m :
  In m (stdout w) -> In m (stdout (snd (sync_loop E u l st n w))).
Proof.
  intros Hin. destruct (sync_loop_spec E u l st n w) as (_ & _ & _ & out & Hs & _).
  rewrite Hs. apply in_or_app. left. exact Hin.
Qed.

(** The label of a ticket whose launch succeeded is computed from the
    ledger as it is when the ticket is processed: the ledger the loop
    started with and the keys of the tickets synced before it. *)
Lemma sync_loop_done E u l1 i l2 url : forall st n w,
  ticket_url E i = Some url ->
  subprocess_run E (length (opened w) + length (launches E l1)) url = Ret tt ->
  In (MsgDone
        (action_label u
           (bool_decide
              (key i ∈ list_to_set (map key (sink_ok E (length (opened w)) l1))
                       ∪ synced_tickets st)))
        (key i) (summary i))
     (stdout (snd (sync_loop E u (l1 ++ i :: l2) st n w))).
Proof.
  induction l1 as [|j l1 IH]; intros st n w Hu Hr.
  - cbn [app sync_loop]. unfold bind.
    destruct (sync_ticket E u i st n w) as [[st1 n1] w1] eqn:Hst.
    pose proof (sync_ticket_step E u i st n w) as Hstep.
    rewrite Hst, Hu in Hstep. cbn [fst snd] in Hstep.
    destruct Hstep as (_ & out1 & Hs1 & Hcase).
    change (launches E []) with (@nil string) in Hr. cbn [length] in Hr.
    rewrite Nat.add_0_r in Hr. rewrite Hr in Hcase.
    destruct Hcase as (_ & _ & _ & Hin).
    cbn [fst snd]. apply sync_loop_stdout_mono. rewrite Hs1.
    apply in_or_app. right.
    cbn [sink_ok map list_to_set].
    replace (bool_decide (key i ∈ (∅ : gset string) ∪ synced_tickets st))
      with (is_ticket_synced st (key i))
      by (unfold is_ticket_synced; apply bool_decide_ext; set_solver).
    exact Hin.
  - rewrite <- app_comm_cons. cbn [sync_loop]. unfold bind.
    destruct (sync_ticket E u j st n w) as [[st1 n1] w1] eqn:Hst.
    pose proof (sync_ticket_step E u j st n w) as Hstep.
    rewrite Hst in Hstep. cbn [fst snd] in Hstep.
    cbn [fst snd sink_ok]. rewrite launches_cons in Hr.
    destruct (ticket_url E j) as [urlj|] eqn:Huj.
    + destruct Hstep as (Ho1 & out1 & Hs1 & Hcase).
      assert (Hlen : length (opened w1) = S (length (opened w)))
        by (rewrite Ho1, length_app; cbn; lia).
      cbn [length] in Hr. rewrite <- Nat.add_succ_comm, <- Hlen in Hr.
      specialize (IH st1 n1 w1 Hu Hr). rewrite Hlen in IH.
      destruct (subprocess_run E (length (opened w)) urlj) as [[]|e].
      * destruct Hcase as (Hset & _). rewrite Hset in IH. cbn [map list_to_set].
        erewrite bool_decide_ext; [exact IH|]. set_solver.
      * destruct Hcase as (Hfst & _). injection Hfst as -> ->. exact IH.
    + destruct Hstep as (Hfst & Ho1 & _). injection Hfst as -> ->.
      rewrite <- Ho1 in Hr. specialize (IH st n w1 Hu Hr).
      rewrite Ho1 in IH. exact IH.
Qed.

(** When some ticket is selected, the run goes through the loop started on
    the state it was called with, in a world with the same launches behind
    it, and prints whatever the loop printed. *)
Lemma sync_tickets_loop E self jql pn f u w :
  kept (state self) f u (fetched_issues E jql) <> [] ->
  exists w7,
    opened w7 = opened w /\
    forall m,
      In m (stdout (snd (sync_loop E u (kept (state self) f u (fetched_issues E jql))
                           (state self) 0 w7))) ->
      In m (stdout (snd (sync_tickets E self jql pn f u w))).
Proof.
  intros Hne. rewrite sync_tickets_unfold. cbv zeta.
  set (w1 := add_stdout MsgStarting w).
  set (stats := fst (get_sync_stats w1)).
  set (w2 := snd (get_sync_stats w1)).
  set (w3 := if bool_decide (stats = ∅) then w2 else _).
  set (w4 := snd (fetch_issues E jql w3)).
  assert (Hq : quiet w w4).
  { apply quiet_trans with w1; [apply quiet_print; reflexivity|].
    apply quiet_trans with w2; [apply get_sync_stats_quiet|].
    apply quiet_trans with w3; [|apply fetch_issues_spec].
    subst w3. destruct (bool_decide (stats = ∅));
      [apply quiet_refl | apply quiet_print; reflexivity]. }
  destruct Hq as (_ & Ho4 & _).
  clearbody w4. clear w1 stats w2 w3.
  destruct (fetched_issues E jql) as [|i0 issues0]; [exfalso; apply Hne; reflexivity|].
  set (issues := i0 :: issues0) in *.
  set (sk := length issues - length (kept (state self) f u issues)).
  set (w6 := if 0 <? sk then _ else _).
  assert (Ho6 : opened w6 = opened w)
    by (subst w6; destruct (0 <? sk); cbn [opened add_stdout]; exact Ho4).
  clearbody w6.
  destruct (kept (state self) f u issues) as [|s0 sel0]; [congruence|].
  set (sel := s0 :: sel0) in *.
  exists (add_stdout (MsgSyncing (length sel)) w6). split; [exact Ho6|].
  intros m Hin.
  set (r := sync_loop E u sel (state self) 0 _) in *.
  set (w8 := add_stdout (MsgCompleted (snd (fst r)) (length sel)) (snd r)).
  destruct (get_sync_stats_quiet w8) as (_ & _ & out9 & Hs9 & _).
  cbn [snd stdout add_stdout]. rewrite Hs9. subst w8. cbn [stdout add_stdout].
  rewrite !in_app_iff. auto.
Qed.

(** C2, as the program has it. The decision depends on the membership of
    the identifier and on the two flags only: a ticket is skipped when both
    flags are false and it is in the ledger; otherwise it is an update when
    [update_existing] is true and it is in the ledger, under [force_resync]
    too, and a creation in every other case. The tickets that are not
    skipped are the ones processed: each of them whose request can be built
    is launched, in fetch order, and a launch that succeeds is printed with
    the label of the decision taken on the ledger as it is at that
    moment. *)
Theorem decision_drives_run E self jql pn f u w :
  let issues := fetched_issues E jql in
  let sel :=
    List.filter
      (fun i => negb (is_skip (decision f u (is_ticket_synced (state self) (key i)))))
      issues in
  let r := sync_tickets E self jql pn f u w in
  (forall s,
      decision f u s =
      if negb f && negb u && s then Skip
      else if u && s then Update else Create) /\
  opened (snd r) = opened w ++ launches E sel /\
  (forall l1 i l2 url,
      sel = l1 ++ i :: l2 ->
      ticket_url E i = Some url ->
      subprocess_run E (length (opened w) + length (launches E l1)) url = Ret tt ->
      In (MsgDone
            (label_of
               (decision f u
                  (bool_decide
                     (key i ∈ list_to_set (map key (sink_ok E (length (opened w)) l1))
                              ∪ synced_tickets (state self)))))
            (key i) (summary i))
         (stdout (snd r))).
Proof.
  cbv zeta. rewrite <- kept_decision.
  split; [intros s; apply decision_table|].
  destruct (sync_tickets_spec E self jql pn f u w) as (_ & _ & Hop & _).
  split; [exact Hop|].
  intros l1 i l2 url Hl Hu Hr.
  assert (Hne : kept (state self) f u (fetched_issues E jql) <> [])
    by (rewrite Hl; destruct l1; discriminate).
  destruct (sync_tickets_loop E self jql pn f u w Hne) as (w7 & Ho7 & Hmono).
  apply Hmono. rewrite <- action_label_decision, <- Ho7, Hl.
  apply (sync_loop_done E u l1 i l2 url); rewrite ?Ho7; assumption.
Qed.

(** C3, as the program has it. The ledger gains the identifiers of the
    selected tickets whose launch succeeded and no other; every selected
    ticket whose request can be built is launched whatever became of those
    before it; each launch that fails is printed with the identifier and
    the exception. With three tickets fetched into an empty ledger, the second
    launch failing and the others succeeding, the run prints 3 found and 2
    of 3 synced and one failure line, returns no result, and the ledger
    holds the identifiers of the first and the third ticket. *)
Theorem failures_are_isolated E self jql pn f u w :
  let issues := fetched_issues E jql in
  let sel := kept (state self) f u issues in
  let n0 := length (opened w) in
  let ok := sink_ok E n0 sel in
  let r := sync_tickets E self jql pn f u w in
  synced_tickets (state (snd (fst r))) =
    list_to_set (map key ok) ∪ synced_tickets (state self) /\
  opened (snd r) = opened w ++ launches E sel /\
  (exists out,
      stdout (snd r) = stdout w ++ out /\
      length (List.filter is_failure out) + length ok = length sel /\
      (forall l1 i l2 url e,
          sel = l1 ++ i :: l2 ->
          ticket_url E i = Some url ->
          subprocess_run E (n0 + length (launches E l1)) url = Raise e ->
          exists pre post, out = pre ++ failure_report (key i) e ++ post)) /\
  (forall t1 t2 t3 u1 u2 u3 e,
      issues = [t1; t2; t3] ->
      f = false -> u = false ->
      synced_tickets (state self) = ∅ ->
      ticket_url E t1 = Some u1 ->
      ticket_url E t2 = Some u2 ->
      ticket_url E t3 = Some u3 ->
      subprocess_run E n0 u1 = Ret tt ->
      subprocess_run E (n0 + 1) u2 = Raise e ->
      subprocess_run E (n0 + 2) u3 = Ret tt ->
      fst (fst r) = None /\
      synced_tickets (state (snd (fst r))) = {[key t1; key t3]} /\
      exists out,
        stdout (snd r) = stdout w ++ out /\
        In (MsgFound 3) out /\
        In (MsgCompleted 2 3) out /\
        length (List.filter is_failure out) = 1 /\
        exists pre post, out = pre ++ failure_report (key t2) e ++ post).
Proof.
  cbv zeta.
  destruct (sync_tickets_spec E self jql pn f u w)
    as (Hnone & Hset & Hop & _ & out & Hs & Hcnt & _ & Hfound & _ & _ & Hdone
        & Hfail & _).
  split; [exact Hset|]. split; [exact Hop|].
  split; [exists out; auto|].
  intros t1 t2 t3 u1 u2 u3 e Hi -> -> Hempty Hu1 Hu2 Hu3 H1 H2 H3.
  rewrite Hi in *.
  assert (Hk : kept (state self) false false [t1; t2; t3] = [t1; t2; t3]).
  { unfold kept, is_ticket_synced. rewrite Hempty. reflexivity. }
  rewrite Hk in *.
  assert (Hok : sink_ok E (length (opened w)) [t1; t2; t3] = [t1; t3]).
  { cbn [sink_ok]. rewrite Hu1, Hu2, Hu3, H1.
    replace (S (length (opened w))) with (length (opened w) + 1) by lia.
    rewrite H2.
    replace (S (length (opened w) + 1)) with (length (opened w) + 2) by lia.
    rewrite H3. reflexivity. }
  rewrite Hok in *. cbn [length map] in *.
  split; [exact Hnone|].
  split; [rewrite Hset, Hempty; set_solver|].
  exists out. split; [exact Hs|].
  split; [apply Hfound; discriminate|].
  split; [apply Hdone; discriminate|].
  split; [lia|].
  apply (Hfail [t1] t2 [t3] u2 e); [reflexivity | exact Hu2 |].
  rewrite launches_cons, Hu1. exact H2.
Qed.

(** After a run with both flags false in which the request of every
    selected ticket could be built and every launch succeeded, every
    fetched ticket is in the ledger. *)
Lemma run_all_ok_covers E self jql pn w :
  (forall i, In i (kept (state self) false false (fetched_issues E jql)) ->
             exists notes, format_ticket_notes i = Ret notes) ->
  (forall n url,
      length (opened w) <= n ->
      opened (snd (sync_tickets E self jql pn false false w)) !! n = Some url ->
      subprocess_run E n url = Ret tt) ->
  sink_ok E (length (opened w)) (kept (state self) false false (fetched_issues E jql)) =
    kept (state self) false false (fetched_issues E jql) /\
  forall i, In i (fetched_issues E jql) ->
    key i ∈ synced_tickets (state (snd (fst (sync_tickets E self jql pn false false w)))).
Proof.
  intros Hfmt Hall.
  destruct (sync_tickets_spec E self jql pn false false w) as (_ & Hset & Hop & _).
  set (sel := kept (state self) false false (fetched_issues E jql)) in *.
  assert (Hok : sink_ok E (length (opened w)) sel = sel).
  { apply sink_ok_all.
    - intros i Hi Hn. destruct (Hfmt i Hi) as [notes Hnotes].
      unfold ticket_url in Hn. rewrite Hnotes in Hn. discriminate Hn.
    - intros p url Hl. apply Hall; [lia|]. rewrite Hop.
      rewrite lookup_app_r by lia.
      replace (length (opened w) + p - length (opened w)) with p by lia.
      exact Hl. }
  split; [exact Hok|].
  intros i Hi. rewrite Hset, Hok.
  destruct (is_ticket_synced (state self) (key i)) eqn:Hs.
  - apply is_ticket_synced_true in Hs. set_solver.
  - apply elem_of_union_l, elem_of_list_to_set, list_elem_of_In, in_map.
    subst sel. unfold kept. apply List.filter_In. split; [exact Hi|].
    rewrite Hs. reflexivity.
Qed.

Lemma kept_all_synced st issues :
  (forall i, In i issues -> key i ∈ synced_tickets st) ->
  kept st false false issues = [].
Proof.
  unfold kept. induction issues as [|i l IH]; intros H; [reflexivity|].
  cbn [List.filter].
  assert (Hs : is_ticket_synced st (key i) = true)
    by (apply is_ticket_synced_true, H; left; reflexivity).
  rewrite Hs. cbn. apply IH. intros j Hj. apply H. right. exact Hj.
Qed.


(** C9 fails on a ticket whose reporter attribute holds [None]. Of three
    fetched tickets, none in the ledger, the second has such a reporter:
    no ticket is skipped, and the run calls Things3 for the first and the
    third only. *)
Theorem unbuilt_request_no_launch :
  let E := sample_env [sample_ticket "A"; orphan_ticket "B"; sample_ticket "C"]
             all_launches_ok in
  let r := sync_tickets E (thira_with []) "" "Jira Tickets" false false
             (fresh_world None) in
  List.filter
    (fun i => negb (is_skip (decision false false
                               (is_ticket_synced (state (thira_with [])) (key i)))))
    (fetched_issues E "")
  = [sample_ticket "A"; orphan_ticket "B"; sample_ticket "C"] /\
  ticket_url E (orphan_ticket "B") = None /\
  opened (snd r) = omap (ticket_url E) [sample_ticket "A"; sample_ticket "C"] /\
  length (opened (snd r)) = 2 /\
  In (MsgError "B" AttributeError) (stdout (snd r)) /\
  synced_tickets (state (snd (fst r))) = {["A"; "C"]}.
Proof. cbv zeta. repeat split; vm_compute; auto 30. Qed.

(** C4, as the program has it. [sync_tickets] returns [None] on every
    input. What a run has to report it prints: the number of tickets
    found, the number skipped when there are some, and, when some ticket is
    selected, the number synced out of the number selected, with a line for
    each failure. A fetch of no ticket prints one line saying so and
    changes nothing. *)
Theorem run_returns_none E self jql pn f u w :
  let issues := fetched_issues E jql in
  let sel := kept (state self) f u issues in
  let ok := sink_ok E (length (opened w)) sel in
  let r := sync_tickets E self jql pn f u w in
  fst (fst r) = None /\
  (issues = [] ->
   snd (fst r) = self /\ opened (snd r) = opened w /\ disk (snd r) = disk w) /\
  exists out,
    stdout (snd r) = stdout w ++ out /\
    (issues = [] -> In MsgNoTickets out) /\
    (issues <> [] -> In (MsgFound (length issues)) out) /\
    (length sel < length issues ->
     In (MsgSkipping (length issues - length sel)) out) /\
    (issues <> [] -> sel = [] -> In MsgNoNew out) /\
    (sel <> [] -> In (MsgCompleted (length ok) (length sel)) out) /\
    length (List.filter is_failure out) + length ok = length sel.
Proof.
  cbv zeta.
  destruct (sync_tickets_spec E self jql pn f u w)
    as (Hnone & _ & Hop & Hidle & out & Hs & Hcnt & H1 & H2 & H3 & H4 & H5 & _).
  split; [exact Hnone|]. split.
  - intros Hnil. rewrite Hnil in *. cbn [kept List.filter map] in *.
    rewrite app_nil_r in Hop. destruct (Hidle eq_refl). auto.
  - exists out. auto 10.
Qed.

(** * Instances *)

Lemma ledger_frame_witness :
  "A" <> "B" /\
  is_ticket_synced (state (thira_with ["A"])) "A" = true /\
  is_ticket_synced
    (fst (mark_ticket_synced (sample_env [] all_launches_ok)
            (state (thira_with ["A"])) "A" (fresh_world None))) "B" =
  is_ticket_synced (state (thira_with ["A"])) "B" /\
  synced_tickets
    (fst (mark_ticket_synced (sample_env [] all_launches_ok)
            (state (thira_with ["A"])) "A" (fresh_world None))) =
  synced_tickets (state (thira_with ["A"])).
Proof.
  assert (Hne : "A" <> "B") by discriminate.
  assert (Hin : is_ticket_synced (state (thira_with ["A"])) "A" = true)
    by (vm_compute; reflexivity).
  destruct (ledger_frame (sample_env [] all_launches_ok)
              (state (thira_with ["A"])) "A" "B" (fresh_world None) Hne)
    as (Hmark & _ & Hidem).
  split; [exact Hne|]. split; [exact Hin|]. split; [exact Hmark|].
  exact (Hidem Hin).
Defined.

Lemma unloadable_state_file_witness :
  load_body (Known Malformed) = Raise JSONDecodeError /\
  handled JSONDecodeError = true /\
  (forall f, Known Malformed = Known f -> disk (fresh_world (Some Malformed)) = Some f) /\
  fst (_load_state (sample_env [] all_launches_ok) (fresh_world (Some Malformed))) = ∅ /\
  fst (get_sync_stats
         (add_stdout (WarnLoadState JSONDecodeError) (fresh_world (Some Malformed))))
    !! "total_synced" = None.
Proof.
  assert (Hb : load_body (Known Malformed) = Raise JSONDecodeError) by reflexivity.
  assert (Hh : handled JSONDecodeError = true) by reflexivity.
  assert (Hw : forall f, Known Malformed = Known f ->
                         disk (fresh_world (Some Malformed)) = Some f)
    by (intros f Hf; injection Hf as <-; reflexivity).
  destruct (unloadable_state_file (sample_env [] all_launches_ok) (thira_with [])
              (Known Malformed) JSONDecodeError (fresh_world (Some Malformed)) Hb Hh Hw)
    as (_ & Hload & _ & _ & Hnone & _).
  split; [exact Hb|]. split; [exact Hh|]. split; [exact Hw|].
  split; [rewrite Hload; reflexivity | exact Hnone].
Defined.

(** C5 as stated fails: after loading a malformed file, the record
    [get_sync_stats] returns has no [total_synced] field, so the field is
    not 0. *)
Lemma stats_total_counterexample :
  fst (get_sync_stats
         (snd (_load_state (sample_env [] all_launches_ok)
                 (fresh_world (Some Malformed))))) !! "total_synced"
  <> Some (PInt 0).
Proof. vm_compute. discriminate. Qed.

Lemma ledger_round_trip_witness :
  synced_tickets
    (fst (StateManager_init (sample_env [] all_launches_ok) (fresh_world None))) = ∅ /\
  (forall n,
      writes (snd (StateManager_init (sample_env [] all_launches_ok) (fresh_world None)))
        <= n <
      writes (snd (StateManager_init (sample_env [] all_launches_ok) (fresh_world None)))
        + length ["A"; "B"] ->
      open_write (sample_env [] all_launches_ok) n = Written) /\
  synced_tickets
    (fst (StateManager_init (sample_env [] all_launches_ok)
            (snd (mark_all (sample_env [] all_launches_ok) ["A"; "B"]
                    (fst (StateManager_init (sample_env [] all_launches_ok)
                            (fresh_world None)))
                    (snd (StateManager_init (sample_env [] all_launches_ok)
                            (fresh_world None))))))) =
  list_to_set ["A"; "B"].
Proof.
  assert (H0 : synced_tickets
                 (fst (StateManager_init (sample_env [] all_launches_ok)
                         (fresh_world None))) = ∅)
    by (vm_compute; reflexivity).
  assert (Hw : forall n,
             writes (snd (StateManager_init (sample_env [] all_launches_ok)
                            (fresh_world None))) <= n <
             writes (snd (StateManager_init (sample_env [] all_launches_ok)
                            (fresh_world None))) + length ["A"; "B"] ->
             open_write (sample_env [] all_launches_ok) n = Written)
    by (intros n _; reflexivity).
  split; [exact H0|]. split; [exact Hw|].
  exact (ledger_round_trip (sample_env [] all_launches_ok) ["A"; "B"]
           (fresh_world None) H0 Hw).
Defined.

Lemma notes_template_witness :
  500 < String.length long_body /\
  exists p rest,
    format_ticket_notes long_ticket =
      Ret ("**Ticket** T-1" +:+ nl +:+ "**URL** https://jira/browse/T-1" +:+ nl +:+ nl
           +:+ "**Description**" +:+ nl +:+ p +:+ "...") /\
    String.length p = 500 /\
    long_body = p +:+ rest.
Proof.
  assert (Hlen : 500 < String.length long_body) by (vm_compute; lia).
  split; [exact Hlen|].
  pose proof (notes_template long_ticket) as H.
  cbn [reporter long_ticket] in H.
  destruct H as (rep & desc & Heq & Hrep & Hdesc).
  cbn [description reporter long_ticket] in Hrep, Hdesc.
  destruct Hdesc as (body & Hd & _ & Hcut).
  destruct (Hcut Hlen) as (p & rest & Hb & Hp & Hs).
  exists p, rest. split; [|split; [exact Hp | exact Hs]].
  rewrite Heq, Hrep, Hd, Hb. reflexivity.
Defined.

Lemma decision_drives_run_witness :
  let E := sample_env [sample_ticket "X"] all_launches_ok in
  let r := sync_tickets E (thira_with ["X"]) "" "Jira Tickets" true false
             (fresh_world None) in
  exists url,
    List.filter
      (fun i => negb (is_skip (decision true false
                                 (is_ticket_synced (state (thira_with ["X"])) (key i)))))
      (fetched_issues E "") = [] ++ sample_ticket "X" :: [] /\
    ticket_url E (sample_ticket "X") = Some url /\
    subprocess_run E (length (opened (fresh_world None)) + length (launches E [])) url
      = Ret tt /\
    opened (snd r) = [url] /\
    In (MsgDone "Synced" "X" "Fix it") (stdout (snd r)).
Proof.
  cbv zeta.
  set (E := sample_env [sample_ticket "X"] all_launches_ok).
  exists (default "" (ticket_url E (sample_ticket "X"))).
  assert (Hsel : List.filter
             (fun i => negb (is_skip (decision true false
                                        (is_ticket_synced (state (thira_with ["X"]))
                                           (key i)))))
             (fetched_issues E "") = [] ++ sample_ticket "X" :: []) by reflexivity.
  assert (Hu : ticket_url E (sample_ticket "X") =
               Some (default "" (ticket_url E (sample_ticket "X")))) by reflexivity.
  assert (Hr : subprocess_run E
                 (length (opened (fresh_world None)) + length (launches E []))
                 (default "" (ticket_url E (sample_ticket "X"))) = Ret tt)
    by reflexivity.
  destruct (decision_drives_run E (thira_with ["X"]) "" "Jira Tickets" true false
              (fresh_world None))
    as (_ & Hop & Hdone).
  split; [exact Hsel|]. split; [exact Hu|]. split; [exact Hr|].
  split; [exact Hop|].
  exact (Hdone [] (sample_ticket "X") [] _ Hsel Hu Hr).
Defined.

(** C2 as stated fails: with both flags true and the ticket in the ledger
    the decision is an update, not a creation, and the run prints the label
    [Updated]. *)
Lemma force_update_counterexample :
  decision true true true <> Create /\
  In (MsgDone "Updated" "X" "Fix it")
    (stdout (snd (sync_tickets (sample_env [sample_ticket "X"] all_launches_ok)
                    (thira_with ["X"]) "" "Jira Tickets" true true
                    (fresh_world None)))).
Proof. split; [discriminate | vm_compute; auto 10]. Qed.

Lemma failures_are_isolated_witness :
  let E := sample_env [sample_ticket "A"; sample_ticket "B"; sample_ticket "C"]
             second_launch_fails in
  let r := sync_tickets E (thira_with []) "" "Jira Tickets" false false
             (fresh_world None) in
  exists u1 u2 u3,
    fetched_issues E "" = [sample_ticket "A"; sample_ticket "B"; sample_ticket "C"] /\
    synced_tickets (state (thira_with [])) = ∅ /\
    ticket_url E (sample_ticket "A") = Some u1 /\
    ticket_url E (sample_ticket "B") = Some u2 /\
    ticket_url E (sample_ticket "C") = Some u3 /\
    subprocess_run E 0 u1 = Ret tt /\
    subprocess_run E (0 + 1) u2 = Raise CalledProcessError /\
    subprocess_run E (0 + 2) u3 = Ret tt /\
    fst (fst r) = None /\
    synced_tickets (state (snd (fst r))) = {["A"; "C"]} /\
    exists out,
      stdout (snd r) = stdout (fresh_world None) ++ out /\
      In (MsgFound 3) out /\
      In (MsgCompleted 2 3) out /\
      length (List.filter is_failure out) = 1 /\
      exists pre post,
        out = pre ++ [ErrAddTodo CalledProcessError; MsgFailed "B"] ++ post.
Proof.
  cbv zeta.
  set (E := sample_env [sample_ticket "A"; sample_ticket "B"; sample_ticket "C"]
              second_launch_fails).
  exists (default "" (ticket_url E (sample_ticket "A"))),
         (default "" (ticket_url E (sample_ticket "B"))),
         (default "" (ticket_url E (sample_ticket "C"))).
  assert (Hi : fetched_issues E "" =
               [sample_ticket "A"; sample_ticket "B"; sample_ticket "C"])
    by reflexivity.
  assert (He : synced_tickets (state (thira_with [])) = ∅) by reflexivity.
  assert (Hu1 : ticket_url E (sample_ticket "A") =
                Some (default "" (ticket_url E (sample_ticket "A")))) by reflexivity.
  assert (Hu2 : ticket_url E (sample_ticket "B") =
                Some (default "" (ticket_url E (sample_ticket "B")))) by reflexivity.
  assert (Hu3 : ticket_url E (sample_ticket "C") =
                Some (default "" (ticket_url E (sample_ticket "C")))) by reflexivity.
  assert (H1 : subprocess_run E 0 (default "" (ticket_url E (sample_ticket "A"))) =
               Ret tt) by reflexivity.
  assert (H2 : subprocess_run E (0 + 1)
                 (default "" (ticket_url E (sample_ticket "B"))) =
               Raise CalledProcessError) by reflexivity.
  assert (H3 : subprocess_run E (0 + 2)
                 (default "" (ticket_url E (sample_ticket "C"))) = Ret tt)
    by reflexivity.
  destruct (failures_are_isolated E (thira_with []) "" "Jira Tickets" false false
              (fresh_world None))
    as (_ & _ & _ & Hthree).
  repeat (split; [assumption|]).
  exact (Hthree (sample_ticket "A") (sample_ticket "B") (sample_ticket "C") _ _ _
           CalledProcessError Hi eq_refl eq_refl He Hu1 Hu2 Hu3 H1 H2 H3).
Defined.

(** C3 as stated fails: the run over three tickets whose second launch
    fails returns no result, so none that reports three fetched, two synced
    and one failed; the three numbers are only printed. *)
Lemma run_reports_nothing_counterexample :
  fst (fst (sync_tickets
              (sample_env [sample_ticket "A"; sample_ticket "B"; sample_ticket "C"]
                 second_launch_fails)
              (thira_with []) "" "Jira Tickets" false false (fresh_world None)))
  <> Some {| fetched := 3; skipped := 0; synced := 2; failed := 1;
             failures := [("B", CalledProcessError)] |} /\
  fst (fst (sync_tickets
              (sample_env [sample_ticket "A"; sample_ticket "B"; sample_ticket "C"]
                 second_launch_fails)
              (thira_with []) "" "Jira Tickets" false false (fresh_world None)))
  = None.
Proof. split; [vm_compute; discriminate | vm_compute; reflexivity]. Qed.

Lemma run_returns_none_witness :
  let E := sample_env [] all_launches_ok in
  let r := sync_tickets E (thira_with ["A"]) "" "Jira Tickets" false false
             (fresh_world None) in
  fetched_issues E "" = [] /\
  fst (fst r) = None /\
  snd (fst r) = thira_with ["A"] /\
  opened (snd r) = opened (fresh_world None) /\
  disk (snd r) = disk (fresh_world None).
Proof.
  cbv zeta.
  assert (Hi : fetched_issues (sample_env [] all_launches_ok) "" = []) by reflexivity.
  destruct (run_returns_none (sample_env [] all_launches_ok) (thira_with ["A"]) ""
              "Jira Tickets" false false (fresh_world None))
    as (Hnone & Hzero & _).
  split; [exact Hi|]. split; [exact Hnone|]. exact (Hzero Hi).
Defined.

(** C4 as stated fails: on a fetch of no ticket the run returns [None],
    not a result whose four counts are zero, and a run that syncs a ticket
    returns [None] as well. *)
Lemma run_result_counterexample :
  fst (fst (sync_tickets (sample_env [] all_launches_ok) (thira_with []) ""
              "Jira Tickets" false false (fresh_world None)))
  <> Some {| fetched := 0; skipped := 0; synced := 0; failed := 0; failures := [] |} /\
  fst (fst (sync_tickets (sample_env [sample_ticket "A"] all_launches_ok)
              (thira_with []) "" "Jira Tickets" false false (fresh_world None)))
  = None.
Proof. split; [vm_compute; discriminate | vm_compute; reflexivity]. Qed.

(** * Further properties of the ledger *)

Lemma remove_ticket_world E st k w :
  snd (remove_ticket E st k w) =
  snd (_save_state E {| synced_tickets := synced_tickets st ∖ {[k]} |} w).
Proof.
  unfold remove_ticket, bind, ret.
  destruct (_save_state E _ w); reflexivity.
Qed.

(** What [get_sync_stats] returns depends on the file only, and the call
    changes nothing but the output. *)
Lemma get_sync_stats_disk w w' :
  disk w = disk w' -> fst (get_sync_stats w) = fst (get_sync_stats w').
Proof.
  intros Hd. destruct (disk w) as [f|] eqn:Hw.
  - rewrite (get_sync_stats_existing f w Hw).
    rewrite (get_sync_stats_existing f w' (eq_sym Hd)).
    destruct f; reflexivity.
  - unfold get_sync_stats, os_path_exists, bind, ret. rewrite Hw, <- Hd. reflexivity.
Qed.

Lemma get_sync_stats_counters w :
  writes (snd (get_sync_stats w)) = writes w /\
  clock (snd (get_sync_stats w)) = clock w.
Proof.
  destruct (disk w) as [f|] eqn:Hw.
  - rewrite (get_sync_stats_existing f w Hw). destruct f; auto.
  - unfold get_sync_stats, os_path_exists, bind, ret. rewrite Hw. auto.
Qed.

(** X1. [remove_ticket] takes the identifier out of the in-memory set, an
    identifier that was not there leaving the set as it was, and rewrites
    the file in either case. *)
Theorem remove_ticket_discards E st k w :
  let st' := fst (remove_ticket E st k w) in
  let w' := snd (remove_ticket E st k w) in
  synced_tickets st' = synced_tickets st ∖ {[k]} /\
  is_ticket_synced st' k = false /\
  (if is_ticket_synced st k
   then synced_tickets st = {[k]} ∪ synced_tickets st'
   else synced_tickets st' = synced_tickets st) /\
  writes w' = S (writes w) /\
  match open_write E (writes w) with
  | Written =>
      disk w' =
        Some (Data {| d_synced_tickets := Some (elements (synced_tickets st'));
                      d_last_sync := Some (datetime_now E (clock w)) |}) /\
      stdout w' = stdout w
  | OpenFailed =>
      disk w' = disk w /\ stdout w' = stdout w ++ [WarnSaveState IOError]
  | Torn =>
      disk w' = Some Malformed /\ stdout w' = stdout w ++ [WarnSaveState IOError]
  end.
Proof.
  cbv zeta. rewrite remove_ticket_world, remove_ticket_set.
  destruct (save_state_world E {| synced_tickets := synced_tickets st ∖ {[k]} |} w)
    as (_ & Hwr & _ & Hcase).
  split; [reflexivity|].
  split; [unfold is_ticket_synced; apply bool_decide_eq_false|].
  2: split; [|split; [exact Hwr | exact Hcase]].
  - rewrite remove_ticket_set. set_solver.
  - destruct (is_ticket_synced st k) eqn:Hs.
    + apply is_ticket_synced_true in Hs.
      apply set_eq. intros x. rewrite elem_of_union, elem_of_singleton,
        elem_of_difference, elem_of_singleton.
      destruct (decide (x = k)) as [->|Hne]; tauto.
    + apply bool_decide_eq_false in Hs. set_solver.
Qed.

(** X2. Marking then removing an identifier leaves the ledger without it,
    removing then marking leaves the ledger with it, and removing twice is
    removing once. *)
Theorem mark_remove_compose E st k w w1 :
  synced_tickets (fst (remove_ticket E (fst (mark_ticket_synced E st k w)) k w1)) =
    synced_tickets st ∖ {[k]} /\
  synced_tickets (fst (mark_ticket_synced E (fst (remove_ticket E st k w)) k w1)) =
    {[k]} ∪ synced_tickets st /\
  synced_tickets (fst (remove_ticket E (fst (remove_ticket E st k w)) k w1)) =
    synced_tickets (fst (remove_ticket E st k w)).
Proof.
  rewrite !remove_ticket_set, !mark_ticket_synced_set, !remove_ticket_set.
  split; [set_solver|]. split; [|set_solver].
  apply set_eq. intros x.
  rewrite !elem_of_union, elem_of_difference, elem_of_singleton.
  destruct (decide (x = k)); tauto.
Qed.

(** X3. [clear_all_state] empties the in-memory set and deletes the file
    without writing anything; [get_sync_stats] then returns the empty dict
    and prints no warning, and clearing again changes nothing more. *)
Theorem clear_all_state_deletes st w :
  let st' := fst (clear_all_state st w) in
  let w' := snd (clear_all_state st w) in
  synced_tickets st' = ∅ /\
  (forall k, is_ticket_synced st' k = false) /\
  disk w' = None /\
  writes w' = writes w /\
  opened w' = opened w /\
  stdout w' = stdout w ++ [MsgStateCleared] /\
  get_sync_stats w' = (∅, w') /\
  disk (snd (clear_all_state st' w')) = None /\
  synced_tickets (fst (clear_all_state st' w')) = ∅.
Proof.
  cbv zeta. unfold clear_all_state, os_path_exists, os_remove, bind, ret, print.
  destruct (disk w) eqn:Hd; cbn; rewrite ?Hd; repeat split; auto.
Qed.

(** X4. After [reset_sync_state], a run selects every fetched ticket,
    whatever the flags, and launches in fetch order each of them whose
    request can be built. *)
Theorem reset_then_run_resyncs_all E self jql pn f u w :
  let self1 := fst (reset_sync_state self w) in
  let w1 := snd (reset_sync_state self w) in
  kept (state self1) f u (fetched_issues E jql) = fetched_issues E jql /\
  opened (snd (sync_tickets E self1 jql pn f u w1)) =
  opened w ++ omap (ticket_url E) (fetched_issues E jql).
Proof.
  cbv zeta.
  assert (Hst : synced_tickets (state (fst (reset_sync_state self w))) = ∅ /\
                opened (snd (reset_sync_state self w)) = opened w).
  { unfold reset_sync_state, clear_all_state, os_path_exists, os_remove,
      bind, ret, print.
    destruct (disk w); cbn; auto. }
  destruct Hst as [Hempty Hw].
  assert (Hk : kept (state (fst (reset_sync_state self w))) f u (fetched_issues E jql) =
               fetched_issues E jql).
  { unfold kept. generalize (fetched_issues E jql).
    induction l as [|i l IH]; [reflexivity|].
    cbn [List.filter]. unfold is_ticket_synced at 1. rewrite Hempty.
    rewrite bool_decide_eq_false_2 by set_solver.
    unfold selected at 1. rewrite !orb_true_r. f_equal. exact IH. }
  split; [exact Hk|].
  destruct (sync_tickets_spec E (fst (reset_sync_state self w)) jql pn f u
              (snd (reset_sync_state self w))) as (_ & _ & Hop & _).
  rewrite Hop, Hk, Hw. reflexivity.
Qed.

(** X5. After a marking whose write succeeds, [get_sync_stats] gives the
    size of the in-memory set as [total_synced], the time of the write as
    [last_sync], and a duplicate-free list of the members. *)
Theorem stats_after_successful_mark E st k w :
  open_write E (writes w) = Written ->
  let st' := fst (mark_ticket_synced E st k w) in
  let stats := fst (get_sync_stats (snd (mark_ticket_synced E st k w))) in
  stats !! "total_synced" = Some (PInt (Z.of_nat (size (synced_tickets st')))) /\
  stats !! "last_sync" = Some (PStr (datetime_now E (clock w))) /\
  exists l,
    stats !! "synced_tickets" = Some (PList l) /\
    NoDup l /\
    forall x, x ∈ l <-> x = k \/ is_ticket_synced st x = true.
Proof.
  intros Hw. cbv zeta.
  pose proof (mark_ticket_synced_world E st k w) as Hwd.
  pose proof (mark_ticket_synced_set E st k w) as Hset.
  destruct (save_state_world E {| synced_tickets := {[k]} ∪ synced_tickets st |} w)
    as (_ & _ & _ & Hcase).
  rewrite Hw in Hcase. destruct Hcase as [Hdisk _].
  rewrite <- Hwd in Hdisk. cbn [synced_tickets] in Hdisk.
  rewrite (get_sync_stats_existing _ _ Hdisk). cbn [fst d_synced_tickets d_last_sync].
  rewrite Hset.
  split; [rewrite lookup_insert_eq; reflexivity|].
  split; [rewrite lookup_insert_ne, lookup_insert_eq by discriminate; reflexivity|].
  exists (elements ({[k]} ∪ synced_tickets st)).
  split; [rewrite !lookup_insert_ne, lookup_insert_eq by discriminate; reflexivity|].
  split; [apply NoDup_elements|].
  intros x. rewrite elem_of_elements, elem_of_union, elem_of_singleton.
  rewrite is_ticket_synced_true. tauto.
Qed.

(** X6. When the file cannot be opened for the write, the marked
    identifier is in the in-memory set and [get_sync_stats], which reads
    the file, returns what it returned before the marking. *)
Theorem stats_stale_after_failed_write E st k w :
  open_write E (writes w) = OpenFailed ->
  is_ticket_synced (fst (mark_ticket_synced E st k w)) k = true /\
  fst (get_sync_stats (snd (mark_ticket_synced E st k w))) = fst (get_sync_stats w) /\
  In (WarnSaveState IOError) (stdout (snd (mark_ticket_synced E st k w))).
Proof.
  intros Hw.
  pose proof (mark_ticket_synced_world E st k w) as Hwd.
  destruct (save_state_world E {| synced_tickets := {[k]} ∪ synced_tickets st |} w)
    as (_ & _ & _ & Hcase).
  rewrite Hw in Hcase. destruct Hcase as [Hdisk Hout]. rewrite <- Hwd in Hdisk, Hout.
  split; [apply is_ticket_synced_true; rewrite mark_ticket_synced_set; set_solver|].
  split; [apply get_sync_stats_disk; exact Hdisk|].
  rewrite Hout. apply in_or_app. right. left. reflexivity.
Qed.

(** X7. When there is no state file, [_load_state] returns the empty set
    and tries to create the file. If that succeeds the file exists and is
    empty, so that the next load warns that it could not be decoded and
    returns the empty set again; if it fails a warning is printed and the
    empty set is returned all the same. *)
Theorem first_run_creates_empty_file E w :
  disk w = None ->
  let w1 := snd (_load_state E w) in
  fst (_load_state E w) = ∅ /\
  writes w1 = S (writes w) /\
  match open_write E (writes w) with
  | Written =>
      disk w1 = Some Malformed /\ stdout w1 = stdout w /\
      _load_state E w1 = (∅, add_stdout (WarnLoadState JSONDecodeError) w1)
  | OpenFailed =>
      disk w1 = None /\ stdout w1 = stdout w ++ [WarnCreateState IOError]
  | Torn =>
      disk w1 = Some Malformed /\ stdout w1 = stdout w ++ [WarnCreateState IOError]
  end.
Proof.
  intros Hd. cbv zeta.
  assert (Hl : _load_state E w =
               match open_write E (writes w) with
               | Written => (∅, set_disk (Some Malformed) (tick_writes w))
               | OpenFailed =>
                   (∅, add_stdout (WarnCreateState IOError) (tick_writes w))
               | Torn =>
                   (∅, add_stdout (WarnCreateState IOError)
                         (set_disk (Some Malformed) (tick_writes w)))
               end).
  { unfold _load_state, os_path_exists, write_file, bind, ret, print.
    rewrite Hd. destruct (open_write E (writes w)); reflexivity. }
  rewrite Hl. destruct (open_write E (writes w)); cbn [fst snd]; repeat split;
    exact Hd.
Qed.

(** X8. Loading keeps each identifier of the stored list once: an
    identifier is in the loaded ledger exactly when it occurs in the list,
    and after the next marking whose write succeeds the stored list has no
    duplicates and holds the old identifiers and the marked one. *)
Theorem load_then_save_normalises E d k w :
  disk w = Some (Data d) ->
  open_write E (writes w) = Written ->
  let st := fst (StateManager_init E w) in
  let w1 := snd (StateManager_init E w) in
  (forall x, is_ticket_synced st x = true <-> In x (default [] (d_synced_tickets d))) /\
  exists l t,
    disk (snd (mark_ticket_synced E st k w1)) =
      Some (Data {| d_synced_tickets := Some l; d_last_sync := Some t |}) /\
    NoDup l /\
    forall x, x ∈ l <-> x = k \/ In x (default [] (d_synced_tickets d)).
Proof.
  intros Hd Hw. cbv zeta.
  assert (Hinit : StateManager_init E w =
                  ({| synced_tickets := list_to_set (default [] (d_synced_tickets d)) |},
                   w)).
  { unfold StateManager_init, bind, ret.
    rewrite (load_state_existing E (Data d) w Hd). reflexivity. }
  rewrite Hinit. cbn [fst snd].
  split.
  - intros x. rewrite is_ticket_synced_true. cbn [synced_tickets].
    rewrite elem_of_list_to_set, list_elem_of_In. reflexivity.
  - pose proof (mark_ticket_synced_world E
                  {| synced_tickets := list_to_set (default [] (d_synced_tickets d)) |}
                  k w) as Hwd.
    destruct (save_state_world E
                {| synced_tickets :=
                     {[k]} ∪ list_to_set (default [] (d_synced_tickets d)) |} w)
      as (_ & _ & _ & Hcase).
    rewrite Hw in Hcase. destruct Hcase as [Hdisk _].
    cbn [synced_tickets] in Hwd, Hdisk. rewrite <- Hwd in Hdisk.
    eexists. eexists. split; [exact Hdisk|].
    split; [apply NoDup_elements|].
    intros x. rewrite elem_of_elements, elem_of_union, elem_of_singleton,
      elem_of_list_to_set, list_elem_of_In. reflexivity.
Qed.

(** * Further properties of the requests to Things3 *)

Lemma length_append (a b : string) :
  String.length (a +:+ b) = String.length a + String.length b.
Proof.
  induction a as [|x a IH]; [reflexivity|].
  change (S (String.length (a +:+ b)) = S (String.length a + String.length b)).
  f_equal. exact IH.
Qed.

Lemma format_ticket_notes_truthy i notes :
  format_ticket_notes i = Ret notes -> truthy notes = true.
Proof.
  unfold format_ticket_notes.
  destruct (reporter i) as [[r|]|], (description i) as [d|]; cbn;
    intros H; try discriminate H; injection H as <-; reflexivity.
Qed.

(** X9. The parameters of [add_todo] start with the title, no key occurs
    twice, and each optional key is there exactly when its value is not
    empty (for the tags, when the list is not empty). *)
Theorem add_todo_params_keys title notes project tags due_date when :
  let ps := add_todo_params title notes project tags due_date when in
  head ps = Some ("title", title) /\
  NoDup (map fst ps) /\
  (In ("notes", notes) ps <-> truthy notes = true) /\
  (In ("list-id", project) ps <-> truthy project = true) /\
  (In ("tags", join "," tags) ps <-> tags <> []) /\
  (In ("due-date", due_date) ps <-> truthy due_date = true) /\
  (In ("when", when) ps <-> truthy when = true) /\
  (forall k v, In (k, v) ps ->
     In k ["title"; "notes"; "list-id"; "tags"; "due-date"; "when"]).
Proof.
  cbv zeta. unfold add_todo_params.
  destruct (truthy notes), (truthy project), tags as [|t tags],
    (truthy due_date), (truthy when);
    cbn [app head map fst];
    (split; [reflexivity|]);
    (split; [apply (bool_decide_unpack _); vm_compute; exact I|]);
    repeat split; cbn [In];
    try (intros; discriminate);
    try (intros _; tauto);
    try (intros H; decompose [or] H; solve [discriminate | contradiction]);
    try (intros k v H; decompose [or] H; try contradiction;
         match goal with
         | Heq : (_, _) = (_, _) |- _ => injection Heq as Hk _; subst k; tauto
         end).
Qed.

(** X10. [add_todo] hands one URL to [open], a URL of the [add] action;
    it returns [True] when the launch succeeds, prints the error and
    returns [False] when the launch raises [CalledProcessError], and lets
    any other exception through; it never touches the state file. *)
Theorem add_todo_outcomes E title notes project tags due_date when w :
  let url := add_todo_url E title notes project tags due_date when in
  let r := add_todo E title notes project tags due_date when w in
  url = "things:///add?" +:+
        urlencode E (add_todo_params title notes project tags due_date when) /\
  opened (snd r) = opened w ++ [url] /\
  disk (snd r) = disk w /\
  writes (snd r) = writes w /\
  fst r <> Raise CalledProcessError /\
  match subprocess_run E (length (opened w)) url with
  | Ret _ => fst r = Ret true /\ stdout (snd r) = stdout w
  | Raise CalledProcessError =>
      fst r = Ret false /\
      stdout (snd r) = stdout w ++ [ErrAddTodo CalledProcessError]
  | Raise e => fst r = Raise e /\ stdout (snd r) = stdout w
  end.
Proof.
  cbv zeta. unfold add_todo, run_open, bind, ret, print.
  split; [reflexivity|].
  destruct (subprocess_run E _ _) as [[]|[]]; cbn [fst snd];
    repeat split; discriminate.
Qed.

(** X11. For every ticket whose notes can be built the request sent to
    Things3 has exactly four parameters, in this order: the title, the
    notes, which are never empty, the identifier of the ticket project, and
    the one tag [jira]; a ticket whose notes cannot be built has no
    request. *)
Theorem ticket_request_params E i :
  match format_ticket_notes i with
  | Ret notes =>
      truthy notes = true /\
      add_todo_params (format_ticket_name i) notes TICKET_PROJECT
        (get_ticket_tags i) "" "" =
      [("title", "[" +:+ key i +:+ "] " +:+ summary i);
       ("notes", notes);
       ("list-id", "GXZujchhWvXFy6jsS7bFWS");
       ("tags", "jira")] /\
      ticket_url E i =
      Some ("things:///add?" +:+
            urlencode E [("title", "[" +:+ key i +:+ "] " +:+ summary i);
                         ("notes", notes);
                         ("list-id", "GXZujchhWvXFy6jsS7bFWS");
                         ("tags", "jira")])
  | Raise _ => ticket_url E i = None
  end.
Proof.
  unfold ticket_url.
  destruct (format_ticket_notes i) as [notes|e] eqn:Hn; [|reflexivity].
  pose proof (format_ticket_notes_truthy i notes Hn) as Ht.
  assert (Hp : add_todo_params (format_ticket_name i) notes
                 TICKET_PROJECT (get_ticket_tags i) "" "" =
               [("title", "[" +:+ key i +:+ "] " +:+ summary i);
                ("notes", notes);
                ("list-id", "GXZujchhWvXFy6jsS7bFWS");
                ("tags", "jira")]).
  { unfold add_todo_params. rewrite Ht. reflexivity. }
  split; [exact Ht|]. split; [exact Hp|].
  unfold add_todo_url. rewrite Hp. reflexivity.
Qed.

(** X12. The text put under the [**Description**] heading is never longer
    than 503 characters: a description of at most 500 characters keeps its
    length and a longer one gives exactly 503. *)
Theorem format_description_length s :
  String.length (format_description (Some s)) =
    (if 500 <? String.length s then 503 else String.length s) /\
  String.length (format_description (Some s)) <= 503.
Proof.
  unfold format_description.
  destruct (Nat.ltb_spec 500 (String.length s)) as [Hlt|Hge].
  - assert (Ht : truthy s = true) by (destruct s; [cbn in Hlt; lia | reflexivity]).
    rewrite Ht. cbn [andb].
    destruct (substring_prefix 500 s) as [Hl _]; [lia|].
    rewrite length_append, Hl. cbn. lia.
  - rewrite andb_false_r. lia.
Qed.

(** * Further properties of a run *)

Lemma same_store_refl w : same_store w w.
Proof. repeat split. Qed.

Lemma same_store_trans w1 w2 w3 :
  same_store w1 w2 -> same_store w2 w3 -> same_store w1 w3.
Proof.
  intros (A1 & A2 & A3 & A4) (B1 & B2 & B3 & B4).
  repeat split; congruence.
Qed.

Lemma same_store_print m w : same_store w (add_stdout m w).
Proof. repeat split. Qed.

Lemma get_sync_stats_same_store w : same_store w (snd (get_sync_stats w)).
Proof.
  destruct (get_sync_stats_quiet w) as (Hd & Ho & _).
  destruct (get_sync_stats_counters w) as (Hw & Hc).
  repeat split; assumption.
Qed.

Lemma fetch_issues_same_store E jql w : same_store w (snd (fetch_issues E jql w)).
Proof.
  unfold fetch_issues, get_tickets_by_jql, get_assigned_tickets.
  destruct (truthy jql); destruct (search_issues E _ _);
    unfold bind, ret, print; cbn; repeat split.
Qed.

Lemma fetched_issues_effective E jql :
  fetched_issues E jql =
  match search_issues E (effective_jql jql) 50 with
  | Ret issues => issues
  | Raise _ => []
  end.
Proof. unfold fetched_issues, effective_jql. destruct (truthy jql); reflexivity. Qed.

Lemma sink_ok_incl E l : forall n i, In i (sink_ok E n l) -> In i l.
Proof.
  induction l as [|j l IH]; intros n i Hin; [exact Hin|].
  cbn [sink_ok] in Hin. destruct (ticket_url E j) as [url|].
  - destruct (subprocess_run E n url).
    + destruct Hin as [->|Hin]; [left; reflexivity | right; eapply IH; exact Hin].
    + right. eapply IH. exact Hin.
  - right. eapply IH. exact Hin.
Qed.

(** What the loop body does to the file and to the counters. *)
Lemma sync_ticket_store E u i st n w :
  let r := sync_ticket E u i st n w in
  match ticket_url E i with
  | None =>
      writes (snd r) = writes w /\ clock (snd r) = clock w /\ disk (snd r) = disk w
  | Some url =>
      match subprocess_run E (length (opened w)) url with
      | Ret _ =>
          writes (snd r) = S (writes w) /\ clock (snd r) = S (clock w) /\
          (open_write E (writes w) = Written ->
           disk (snd r) =
             Some (Data {| d_synced_tickets :=
                             Some (elements (synced_tickets (fst (fst r))));
                           d_last_sync := Some (datetime_now E (clock w)) |}))
      | Raise _ =>
          writes (snd r) = writes w /\ clock (snd r) = clock w /\ disk (snd r) = disk w
      end
  end.
Proof.
  cbv zeta. destruct (ticket_url E i) as [url|] eqn:Hu.
  - rewrite (sync_ticket_eq E u i st n w url Hu). cbv zeta.
    destruct (subprocess_run E _ _) as [[]|e].
    + cbn [fst snd]. rewrite mark_ticket_synced_world, mark_ticket_synced_set.
      set (w2 := add_stdout _ _).
      destruct (save_state_world E
                  {| synced_tickets := {[key i]} ∪ synced_tickets st |} w2)
        as (_ & Hwr & Hcl & Hcase).
      split; [exact Hwr|]. split; [exact Hcl|].
      intros Hw. change (writes w2) with (writes w) in Hcase. rewrite Hw in Hcase.
      destruct Hcase as [Hdisk _]. exact Hdisk.
    + destruct e; cbn; auto.
  - apply ticket_url_none in Hu. destruct Hu as [e He].
    rewrite (sync_ticket_unformatted E u i st n w e He). cbn. auto.
Qed.

(** The loop writes the file once for each ticket it syncs and not at all
    for the others; when every write succeeds the file ends up holding the
    ledger the loop ends with. *)
Lemma sync_loop_store E u l : forall st n w,
  let r := sync_loop E u l st n w in
  let ok := sink_ok E (length (opened w)) l in
  writes (snd r) = writes w + length ok /\
  clock (snd r) = clock w + length ok /\
  (ok = [] -> fst (fst r) = st /\ disk (snd r) = disk w) /\
  ((forall m, writes w <= m < writes w + length ok -> open_write E m = Written) ->
   ok <> [] ->
   exists t,
     disk (snd r) =
       Some (Data {| d_synced_tickets := Some (elements (synced_tickets (fst (fst r))));
                     d_last_sync := Some t |})).
Proof.
  induction l as [|i l IH]; intros st n w; cbv zeta.
  - cbn. repeat split; try lia. intros _ Hne. congruence.
  - cbn [sync_loop]. unfold bind.
    destruct (sync_ticket E u i st n w) as [[st1 n1] w1] eqn:Hst.
    pose proof (sync_ticket_step E u i st n w) as Hstep.
    pose proof (sync_ticket_store E u i st n w) as Hstore.
    rewrite Hst in Hstep, Hstore. cbn [fst snd] in Hstep, Hstore.
    specialize (IH st1 n1 w1). cbv zeta in IH.
    cbn [fst snd sink_ok].
    destruct (ticket_url E i) as [url|] eqn:Hu.
    + destruct Hstep as (Ho1 & out1 & Hs1 & Hcase).
      assert (Hlen : length (opened w1) = S (length (opened w)))
        by (rewrite Ho1, length_app; cbn; lia).
      rewrite Hlen in IH.
      destruct IH as (IHw & IHc & IHnil & IHdisk).
      destruct (subprocess_run E (length (opened w)) url) as [[]|e0].
      * destruct Hstore as (Hw1 & Hc1 & Hd1).
        split; [rewrite IHw, Hw1; cbn; lia|].
        split; [rewrite IHc, Hc1; cbn; lia|].
        split; [intros Hnil; discriminate Hnil|].
        intros Hall _.
        destruct (sink_ok E (S (length (opened w))) l) as [|j ok'] eqn:Hok.
        -- destruct (IHnil eq_refl) as [Hs' Hd']. rewrite Hs', Hd'.
           eexists. apply Hd1. apply Hall. cbn. lia.
        -- apply IHdisk; [|discriminate].
           intros m Hm. apply Hall. cbn [length] in *. lia.
      * destruct Hstore as (Hw1 & Hc1 & Hd1).
        destruct Hcase as (Hfst & _). injection Hfst as -> ->.
        split; [rewrite IHw, Hw1; reflexivity|].
        split; [rewrite IHc, Hc1; reflexivity|].
        split.
        -- intros Hnil. destruct (IHnil Hnil) as [Hs' Hd']. rewrite Hs', Hd'. auto.
        -- intros Hall Hne. apply IHdisk; [|exact Hne].
           intros m Hm. apply Hall. lia.
    + destruct Hstep as (Hfst & Ho1 & _). injection Hfst as -> ->.
      rewrite Ho1 in IH.
      destruct IH as (IHw & IHc & IHnil & IHdisk).
      destruct Hstore as (Hw1 & Hc1 & Hd1).
      split; [rewrite IHw, Hw1; reflexivity|].
      split; [rewrite IHc, Hc1; reflexivity|].
      split.
      * intros Hnil. destruct (IHnil Hnil) as [Hs' Hd']. rewrite Hs', Hd'. auto.
      * intros Hall Hne. apply IHdisk; [|exact Hne].
        intros m Hm. apply Hall. lia.
Qed.

Lemma sink_ok_none E l : forall n,
  (forall p url, launches E l !! p = Some url ->
                 exists e, subprocess_run E (n + p) url = Raise e) ->
  sink_ok E n l = [].
Proof.
  induction l as [|i l IH]; intros n H; [reflexivity|].
  cbn [sink_ok]. rewrite launches_cons in H.
  destruct (ticket_url E i) as [url|].
  - destruct (H 0 url eq_refl) as [e He]. rewrite Nat.add_0_r in He.
    rewrite He. apply IH. intros p url' Hl.
    rewrite Nat.add_succ_comm. apply H. exact Hl.
  - apply IH. exact H.
Qed.

(** The run and the file: one write for each ticket synced, none when no
    launch succeeds, and, every write succeeding, a file that holds the
    ledger the run ends with, whose size is the total the run prints. *)
Lemma sync_tickets_store E self jql pn f u w :
  let sel := kept (state self) f u (fetched_issues E jql) in
  let ok := sink_ok E (length (opened w)) sel in
  let r := sync_tickets E self jql pn f u w in
  writes (snd r) = writes w + length ok /\
  clock (snd r) = clock w + length ok /\
  (ok = [] -> snd (fst r) = self /\ disk (snd r) = disk w) /\
  ((forall m, writes w <= m < writes w + length ok -> open_write E m = Written) ->
   ok <> [] ->
   (exists t,
      disk (snd r) =
        Some (Data {| d_synced_tickets :=
                        Some (elements (synced_tickets (state (snd (fst r)))));
                      d_last_sync := Some t |})) /\
   In (MsgTotalEver (PInt (Z.of_nat (size (synced_tickets (state (snd (fst r))))))))
      (stdout (snd r))).
Proof.
  cbv zeta. rewrite sync_tickets_unfold. cbv zeta.
  set (w1 := add_stdout MsgStarting w).
  set (stats := fst (get_sync_stats w1)).
  set (w2 := snd (get_sync_stats w1)).
  set (w3 := if bool_decide (stats = ∅) then w2 else _).
  set (w4 := snd (fetch_issues E jql w3)).
  assert (Hq : same_store w w4).
  { apply same_store_trans with w1; [apply same_store_print|].
    apply same_store_trans with w2; [apply get_sync_stats_same_store|].
    apply same_store_trans with w3; [|apply fetch_issues_same_store].
    subst w3. destruct (bool_decide (stats = ∅));
      [apply same_store_refl | apply same_store_print]. }
  clearbody w4. clear w1 stats w2 w3.
  destruct (fetched_issues E jql) as [|i0 issues0].
  - destruct Hq as (Hd & Ho & Hw & Hc).
    cbn [fst snd kept List.filter sink_ok length add_stdout writes clock disk].
    rewrite Hw, Hc, Hd, !Nat.add_0_r.
    split; [reflexivity|]. split; [reflexivity|].
    split; [intros _; split; reflexivity|].
    intros _ Hne. exfalso. apply Hne. reflexivity.
  - set (issues := i0 :: issues0).
    set (sk := length issues - length (kept (state self) f u issues)).
    set (w6 := if 0 <? sk then _ else _).
    assert (Hq6 : same_store w w6).
    { apply same_store_trans with w4; [exact Hq|].
      apply same_store_trans with (add_stdout (MsgFound (length issues)) w4);
        [apply same_store_print|].
      subst w6. destruct (0 <? sk); [apply same_store_print | apply same_store_refl]. }
    clearbody w6. clear Hq.
    destruct (kept (state self) f u issues) as [|s0 sel0].
    + destruct Hq6 as (Hd & Ho & Hw & Hc).
      cbn [fst snd sink_ok length add_stdout writes clock disk].
      rewrite Hw, Hc, Hd, !Nat.add_0_r.
    split; [reflexivity|]. split; [reflexivity|].
    split; [intros _; split; reflexivity|].
    intros _ Hne. exfalso. apply Hne. reflexivity.
    + set (sel := s0 :: sel0) in *.
      set (w7 := add_stdout (MsgSyncing (length sel)) w6).
      assert (Hq7 : same_store w w7)
        by (apply same_store_trans with w6; [exact Hq6 | apply same_store_print]).
      destruct Hq7 as (Hd7 & Ho7 & Hw7 & Hc7).
      pose proof (sync_loop_store E u sel (state self) 0 w7) as Hloop.
      cbv zeta in Hloop. rewrite Ho7, Hw7, Hc7, Hd7 in Hloop.
      set (r := sync_loop E u sel (state self) 0 w7) in *.
      destruct Hloop as (Hw & Hc & Hnil & Hdisk).
      set (w8 := add_stdout (MsgCompleted (snd (fst r)) (length sel)) (snd r)).
      destruct (get_sync_stats_same_store w8) as (Hd9 & _ & Hw9 & Hc9).
      cbn [fst snd state add_stdout writes clock disk stdout].
      rewrite Hw9, Hc9, Hd9. subst w8. cbn [add_stdout writes clock disk].
      split; [exact Hw|]. split; [exact Hc|]. split.
      * intros Hok. destruct (Hnil Hok) as [Hst Hdk].
        rewrite Hst. split; [destruct self; reflexivity | exact Hdk].
      * intros Hall Hne. destruct (Hdisk Hall Hne) as [t Ht].
        split; [exists t; exact Ht|].
        apply in_or_app. right. left. f_equal.
        assert (Hd8 : disk (add_stdout (MsgCompleted (snd (fst r)) (length sel)) (snd r))
                      = Some (Data {| d_synced_tickets :=
                                        Some (elements (synced_tickets (fst (fst r))));
                                      d_last_sync := Some t |})) by exact Ht.
        rewrite (get_sync_stats_existing _ _ Hd8). cbn [fst d_synced_tickets].
        rewrite lookup_insert_eq. reflexivity.
Qed.

Lemma fetch_issues_raise E jql w e :
  search_issues E (effective_jql jql) 50 = Raise e ->
  fetch_issues E jql w = ([], add_stdout (ErrFetch e) w).
Proof.
  unfold effective_jql, fetch_issues, get_tickets_by_jql, get_assigned_tickets.
  intros H. destruct (truthy jql); rewrite H; reflexivity.
Qed.

(** X13. When the search raises, the error is printed and the run goes on
    as for an empty fetch: it prints that no tickets were found and returns
    [None]; nothing is launched and the ledger, the file and the write
    counter are as before. *)
Theorem fetch_failure_ends_run E self jql pn f u w e :
  search_issues E (effective_jql jql) 50 = Raise e ->
  let r := sync_tickets E self jql pn f u w in
  fst (fst r) = None /\
  snd (fst r) = self /\
  opened (snd r) = opened w /\
  disk (snd r) = disk w /\
  writes (snd r) = writes w /\
  exists mid,
    stdout (snd r) = stdout w ++ [MsgStarting] ++ mid ++ [ErrFetch e; MsgNoTickets].
Proof.
  intros Hs. cbv zeta.
  assert (Hf : fetched_issues E jql = [])
    by (rewrite fetched_issues_effective, Hs; reflexivity).
  destruct (sync_tickets_spec E self jql pn f u w) as (Hnone & _ & Hop & Hidle & _).
  destruct (sync_tickets_store E self jql pn f u w) as (Hw & _).
  rewrite Hf in Hop, Hidle, Hw. cbn [kept List.filter map sink_ok length] in *.
  rewrite app_nil_r in Hop. rewrite Nat.add_0_r in Hw.
  destruct (Hidle eq_refl) as [Hself Hdisk].
  repeat (split; [assumption|]).
  rewrite sync_tickets_unfold. cbv zeta. rewrite Hf.
  rewrite (fetch_issues_raise E jql _ e Hs). cbn [snd stdout add_stdout].
  set (w1 := add_stdout MsgStarting w).
  destruct (get_sync_stats_quiet w1) as (_ & _ & out & Hout & _).
  destruct (bool_decide (fst (get_sync_stats w1) = ∅)).
  - exists out. rewrite Hout. subst w1. cbn [stdout add_stdout].
    rewrite <- !app_assoc. reflexivity.
  - eexists (out ++ [_]). cbn [stdout add_stdout]. rewrite Hout. subst w1.
    cbn [stdout add_stdout]. rewrite <- !app_assoc. reflexivity.
Qed.

(** X14. The first loop sorts every fetched ticket into one of two groups:
    the count of the skipped ones and the number of the selected ones add
    up to the number fetched. With either flag set nothing is skipped;
    with neither, no selected ticket is in the ledger. *)
Theorem selection_partitions st f u issues :
  let sel := fst (select_tickets st f u issues) in
  let skipped_count := snd (select_tickets st f u issues) in
  length sel + skipped_count = length issues /\
  (if f || u then sel = issues /\ skipped_count = 0
   else Forall (fun i => is_ticket_synced st (key i) = false) sel).
Proof.
  cbv zeta. rewrite select_tickets_eq. cbn [fst snd].
  split; [apply kept_length|].
  unfold kept, selected.
  destruct (f || u) eqn:Hfu.
  - cbn [orb]. split.
    + induction issues as [|i l IH]; [reflexivity|]. cbn. f_equal. exact IH.
    + induction issues as [|i l IH]; [reflexivity|]. cbn. exact IH.
  - cbn [orb]. apply (proj2 (List.Forall_forall _ _)). intros i Hi.
    apply List.filter_In in Hi. destruct Hi as [_ Hi].
    destruct (is_ticket_synced st (key i)); [discriminate Hi | reflexivity].
Qed.

Lemma size_union_le (X Y : gset string) : size (X ∪ Y) <= size X + size Y.
Proof.
  rewrite size_union_alt.
  assert (size (Y ∖ X) <= size Y) by (apply subseteq_size; set_solver).
  lia.
Qed.

Lemma size_list_to_set_le (l : list string) :
  size (list_to_set l : gset string) <= length l.
Proof.
  induction l as [|x l IH].
  - change (size (∅ : gset string) <= 0). rewrite size_empty. lia.
  - change (size ({[x]} ∪ (list_to_set l : gset string)) <= S (length l)).
    etransitivity; [apply size_union_le|].
    rewrite size_singleton. lia.
Qed.

Lemma launches_length E l : length (launches E l) <= length l.
Proof.
  induction l as [|i l IH]; [reflexivity|].
  rewrite launches_cons. destruct (ticket_url E i); cbn [length]; lia.
Qed.

Lemma sink_ok_length E l : forall n, length (sink_ok E n l) <= length (launches E l).
Proof.
  induction l as [|i l IH]; intros n; [reflexivity|].
  cbn [sink_ok]. rewrite launches_cons.
  destruct (ticket_url E i) as [url|]; [|apply IH].
  destruct (subprocess_run E n url); cbn [length]; specialize (IH (S n)); lia.
Qed.

Lemma sink_ok_launched E l : forall n i,
  In i (sink_ok E n l) ->
  exists url, ticket_url E i = Some url /\ In url (launches E l).
Proof.
  induction l as [|j l IH]; intros n i Hin; [destruct Hin|].
  cbn [sink_ok] in Hin. rewrite launches_cons.
  destruct (ticket_url E j) as [url|] eqn:Hu.
  - destruct (subprocess_run E n url).
    + destruct Hin as [->|Hin].
      * exists url. split; [exact Hu | left; reflexivity].
      * destruct (IH _ _ Hin) as (url' & Hu' & Hin'). exists url'.
        split; [exact Hu' | right; exact Hin'].
    + destruct (IH _ _ Hin) as (url' & Hu' & Hin'). exists url'.
      split; [exact Hu' | right; exact Hin'].
  - apply (IH _ _ Hin).
Qed.

(** X15. A run writes the state file and reads the clock once for each
    ticket it syncs, and not at all for a ticket that is skipped, whose
    request cannot be built or whose launch fails; it launches once for
    each selected ticket whose request can be built. *)
Theorem run_writes_once_per_synced E self jql pn f u w :
  let sel := kept (state self) f u (fetched_issues E jql) in
  let ok := sink_ok E (length (opened w)) sel in
  let r := sync_tickets E self jql pn f u w in
  writes (snd r) = writes w + length ok /\
  clock (snd r) = clock w + length ok /\
  length (opened (snd r)) = length (opened w) + length (launches E sel) /\
  length ok <= length (launches E sel) /\
  length (launches E sel) <= length sel /\
  size (synced_tickets (state (snd (fst r)))) <=
    size (synced_tickets (state self)) + length ok.
Proof.
  cbv zeta.
  destruct (sync_tickets_store E self jql pn f u w) as (Hw & Hc & _).
  destruct (sync_tickets_spec E self jql pn f u w)
    as (_ & Hset & Hop & _).
  split; [exact Hw|]. split; [exact Hc|].
  split; [rewrite Hop, length_app; reflexivity|].
  split; [apply sink_ok_length|].
  split; [apply launches_length|].
  rewrite Hset. etransitivity; [apply size_union_le|].
  pose proof (size_list_to_set_le
                (map key (sink_ok E (length (opened w))
                            (kept (state self) f u (fetched_issues E jql))))) as Hl.
  rewrite length_map in Hl. lia.
Qed.

(** X16. When every launch of a run raises, the ledger, the file and the
    write counter are as before the run, and the run reports 0 synced out
    of the number selected. *)
Theorem all_failures_leave_state E self jql pn f u w :
  let sel := kept (state self) f u (fetched_issues E jql) in
  let r := sync_tickets E self jql pn f u w in
  (forall p url, launches E sel !! p = Some url ->
     exists e, subprocess_run E (length (opened w) + p) url = Raise e) ->
  snd (fst r) = self /\
  disk (snd r) = disk w /\
  writes (snd r) = writes w /\
  (sel <> [] -> In (MsgCompleted 0 (length sel)) (stdout (snd r))).
Proof.
  cbv zeta. intros Hall.
  pose proof (sink_ok_none E _ _ Hall) as Hok.
  destruct (sync_tickets_store E self jql pn f u w) as (Hw & _ & Hnil & _).
  destruct (sync_tickets_spec E self jql pn f u w)
    as (_ & _ & _ & _ & out & Hs & _ & _ & _ & _ & _ & Hdone & _).
  rewrite Hok in Hw, Hnil, Hdone. cbn [length] in Hw, Hdone.
  destruct (Hnil eq_refl) as [Hself Hdisk].
  split; [exact Hself|]. split; [exact Hdisk|]. split; [lia|].
  intros Hne. rewrite Hs. apply in_or_app. right. apply Hdone. exact Hne.
Qed.

(** X17. When at least one ticket is synced and the writes succeed, the
    file holds the ledger the run ends with: the run prints its size as the
    total ever synced, and a state manager started afterwards loads that
    same ledger. *)
Theorem run_persists_ledger E self jql pn f u w :
  let sel := kept (state self) f u (fetched_issues E jql) in
  let ok := sink_ok E (length (opened w)) sel in
  let r := sync_tickets E self jql pn f u w in
  ok <> [] ->
  (forall m, writes w <= m < writes w + length ok -> open_write E m = Written) ->
  In (MsgTotalEver (PInt (Z.of_nat (size (synced_tickets (state (snd (fst r))))))))
     (stdout (snd r)) /\
  synced_tickets (fst (StateManager_init E (snd r))) =
    synced_tickets (state (snd (fst r))) /\
  snd (StateManager_init E (snd r)) = snd r.
Proof.
  cbv zeta. intros Hne Hall.
  destruct (sync_tickets_store E self jql pn f u w) as (_ & _ & _ & Hdisk).
  destruct (Hdisk Hall Hne) as [[t Ht] Hin].
  split; [exact Hin|].
  unfold StateManager_init, bind, ret.
  rewrite (load_state_existing E _ _ Ht). cbn [fst snd synced_tickets d_synced_tickets].
  split; [|reflexivity].
  change (list_to_set (elements (synced_tickets
            (state (snd (fst (sync_tickets E self jql pn f u w)))))) =
          synced_tickets (state (snd (fst (sync_tickets E self jql pn f u w))))).
  apply list_to_set_elements_L.
Qed.

(** X18. Idempotence across a restart: after a run with both flags false
    that selected something, the request of every selected ticket having
    been built and every launch and every write having succeeded, a new
    process, which loads its ledger from the file, finds every fetched
    ticket in it and launches nothing. *)
Theorem restarted_run_is_idle E self jql pn w :
  let sel := kept (state self) false false (fetched_issues E jql) in
  let r1 := sync_tickets E self jql pn false false w in
  let self2 := {| state := fst (StateManager_init E (snd r1)) |} in
  let w2 := snd (StateManager_init E (snd r1)) in
  let r2 := sync_tickets E self2 jql pn false false w2 in
  sel <> [] ->
  (forall i, In i sel -> exists notes, format_ticket_notes i = Ret notes) ->
  (forall n url,
      length (opened w) <= n -> opened (snd r1) !! n = Some url ->
      subprocess_run E n url = Ret tt) ->
  (forall m, writes w <= m < writes w + length sel -> open_write E m = Written) ->
  synced_tickets (state self2) = synced_tickets (state (snd (fst r1))) /\
  (forall i, In i (fetched_issues E jql) ->
             is_ticket_synced (state self2) (key i) = true) /\
  opened (snd r2) = opened (snd r1) /\
  disk (snd r2) = disk (snd r1).
Proof.
  cbv zeta. intros Hne Hfmt Hlaunch Hwrites.
  destruct (run_all_ok_covers E self jql pn w Hfmt Hlaunch) as [Hok Hcov].
  destruct (sync_tickets_store E self jql pn false false w) as (_ & _ & _ & Hdisk).
  rewrite Hok in Hdisk. destruct (Hdisk Hwrites Hne) as [[t Ht] _].
  assert (Hinit : StateManager_init E (snd (sync_tickets E self jql pn false false w)) =
                  ({| synced_tickets :=
                        list_to_set
                          (elements (synced_tickets
                             (state (snd (fst (sync_tickets E self jql pn false false w)))))) |},
                   snd (sync_tickets E self jql pn false false w))).
  { unfold StateManager_init, bind, ret.
    rewrite (load_state_existing E _ _ Ht). reflexivity. }
  rewrite Hinit. cbn [fst snd state synced_tickets].
  rewrite list_to_set_elements_L.
  split; [reflexivity|].
  split; [intros i Hi; apply is_ticket_synced_true; cbn [synced_tickets]; apply Hcov, Hi|].
  destruct (sync_tickets_spec E
              {| state := {| synced_tickets :=
                   synced_tickets
                     (state (snd (fst (sync_tickets E self jql pn false false w)))) |} |}
              jql pn false false (snd (sync_tickets E self jql pn false false w)))
    as (_ & _ & Hop2 & Hidle & _).
  rewrite kept_all_synced in Hop2, Hidle by exact Hcov.
  change (launches E []) with (@nil string) in Hop2. rewrite app_nil_r in Hop2.
  destruct (Hidle eq_refl) as [_ Hd2]. auto.
Qed.

(** X19. A run never takes an identifier out of the ledger, and every
    identifier it adds is the key of a fetched ticket that was selected and
    whose launch succeeded. *)
Theorem run_only_adds_fetched_keys E self jql pn f u w k :
  let r := sync_tickets E self jql pn f u w in
  (is_ticket_synced (state self) k = true ->
   is_ticket_synced (state (snd (fst r))) k = true) /\
  (is_ticket_synced (state (snd (fst r))) k = true ->
   is_ticket_synced (state self) k = true \/
   exists i url, In i (fetched_issues E jql) /\ key i = k /\
                 ticket_url E i = Some url /\
                 In url (opened (snd r))).
Proof.
  cbv zeta.
  destruct (sync_tickets_spec E self jql pn f u w) as (_ & Hset & Hop & _).
  rewrite !is_ticket_synced_true, Hset. split; [set_solver|].
  intros Hin. apply elem_of_union in Hin. destruct Hin as [Hin|Hin]; [|left; exact Hin].
  right. apply elem_of_list_to_set, list_elem_of_In, in_map_iff in Hin.
  destruct Hin as (i & Hk & Hi).
  destruct (sink_ok_launched E _ _ _ Hi) as (url & Hu & Hl).
  apply sink_ok_incl in Hi.
  exists i, url. split; [|split; [exact Hk|split; [exact Hu|]]].
  - unfold kept in Hi. apply List.filter_In in Hi. tauto.
  - rewrite Hop. apply in_or_app. right. exact Hl.
Qed.

(** X20. After [remove_ticket_from_sync], the next run with both flags
    false selects every fetched ticket that has the removed identifier, and
    launches it when its request can be built. *)
Theorem removed_ticket_is_resynced E self k jql pn w i url :
  In i (fetched_issues E jql) ->
  key i = k ->
  ticket_url E i = Some url ->
  let self1 := fst (remove_ticket_from_sync E self k w) in
  let w1 := snd (remove_ticket_from_sync E self k w) in
  is_ticket_synced (state self1) k = false /\
  In (MsgRemoved k) (stdout w1) /\
  In i (kept (state self1) false false (fetched_issues E jql)) /\
  exists pre post,
    opened (snd (sync_tickets E self1 jql pn false false w1)) =
    opened w1 ++ pre ++ [url] ++ post.
Proof.
  intros Hi Hk Hu. cbv zeta.
  assert (Hrem : synced_tickets (state (fst (remove_ticket_from_sync E self k w))) =
                 synced_tickets (state self) ∖ {[k]} /\
                 In (MsgRemoved k) (stdout (snd (remove_ticket_from_sync E self k w)))).
  { unfold remove_ticket_from_sync, bind, ret, print.
    pose proof (remove_ticket_set E (state self) k w) as Hset.
    destruct (remove_ticket E (state self) k w) as [st1 w1].
    cbn [fst snd state stdout add_stdout] in *.
    split; [exact Hset|]. apply in_or_app. right. left. reflexivity. }
  destruct Hrem as [Hset Hmsg].
  assert (Hns : is_ticket_synced (state (fst (remove_ticket_from_sync E self k w))) k
                = false).
  { unfold is_ticket_synced. apply bool_decide_eq_false. rewrite Hset. set_solver. }
  split; [exact Hns|]. split; [exact Hmsg|].
  destruct (sync_tickets_spec E (fst (remove_ticket_from_sync E self k w)) jql pn
              false false (snd (remove_ticket_from_sync E self k w)))
    as (_ & _ & Hop & _).
  assert (Hin : In i (kept (state (fst (remove_ticket_from_sync E self k w)))
                        false false (fetched_issues E jql))).
  { unfold kept. apply List.filter_In. split; [exact Hi|].
    rewrite Hk, Hns. reflexivity. }
  split; [exact Hin|].
  apply in_split in Hin. destruct Hin as (l1 & l2 & Hl).
  exists (launches E l1), (launches E l2).
  rewrite Hop, Hl, launches_app, launches_cons, Hu. reflexivity.
Qed.

(** X21. [get_sync_status] only reads: it leaves the file and the write
    counter alone and creates no file. Without a file, or with one that
    does not load, it shows a total of 0 and [Never]; with a file that
    loads it shows the length of the stored list and the stored time. *)
Theorem get_sync_status_lines self w :
  let w' := snd (get_sync_status self w) in
  disk w' = disk w /\ writes w' = writes w /\ opened w' = opened w /\
  stdout w' =
    stdout w ++
    match disk w with
    | None =>
        [MsgStatusHeader; MsgStatusTotal (PInt 0); MsgStatusLast (PStr "Never")]
    | Some Malformed =>
        [WarnLoadStats JSONDecodeError;
         MsgStatusHeader; MsgStatusTotal (PInt 0); MsgStatusLast (PStr "Never")]
    | Some Unreadable =>
        [WarnLoadStats IOError;
         MsgStatusHeader; MsgStatusTotal (PInt 0); MsgStatusLast (PStr "Never")]
    | Some (Data d) =>
        [MsgStatusHeader;
         MsgStatusTotal (PInt (Z.of_nat (length (default [] (d_synced_tickets d)))));
         MsgStatusLast (PStr (default "Never" (d_last_sync d)))]
    end.
Proof.
  cbv zeta. unfold get_sync_status, bind, print.
  destruct (disk w) as [f|] eqn:Hd.
  - rewrite (get_sync_stats_existing f w Hd).
    destruct f; cbn [fst snd disk writes opened stdout add_stdout];
      rewrite <- ?app_assoc; repeat split; try exact Hd.
  - unfold get_sync_stats, os_path_exists, bind, ret. rewrite Hd.
    cbn [fst snd disk writes opened stdout add_stdout].
    rewrite <- ?app_assoc. repeat split; exact Hd.
Qed.

(** X22. Idempotence of a run: after a run with both flags false in which
    the request of every selected ticket could be built and every launch
    succeeded, a second run over the same fetch decides to skip every
    ticket, opens nothing and leaves the ledger and the file as they
    are. *)
Theorem second_run_is_idle E self jql pn w :
  let sel := kept (state self) false false (fetched_issues E jql) in
  let r1 := sync_tickets E self jql pn false false w in
  let self1 := snd (fst r1) in
  let w1 := snd r1 in
  let r2 := sync_tickets E self1 jql pn false false w1 in
  (forall i, In i sel -> exists notes, format_ticket_notes i = Ret notes) ->
  (forall n url,
      length (opened w) <= n -> opened w1 !! n = Some url ->
      subprocess_run E n url = Ret tt) ->
  Forall (fun i => decision false false (is_ticket_synced (state self1) (key i)) = Skip)
    (fetched_issues E jql) /\
  opened (snd r2) = opened w1 /\
  snd (fst r2) = self1 /\
  disk (snd r2) = disk w1.
Proof.
  cbv zeta. intros Hfmt Hall.
  destruct (run_all_ok_covers E self jql pn w Hfmt Hall) as [_ Hcov].
  set (self1 := snd (fst (sync_tickets E self jql pn false false w))) in *.
  split.
  - apply (proj2 (List.Forall_forall _ _)). intros i Hi.
    assert (Hs : is_ticket_synced (state self1) (key i) = true)
      by (apply is_ticket_synced_true, Hcov, Hi).
    rewrite Hs. reflexivity.
  - destruct (sync_tickets_spec E self1 jql pn false false
                (snd (sync_tickets E self jql pn false false w)))
      as (_ & _ & Hop2 & Hidle & _).
    rewrite kept_all_synced in Hop2, Hidle by exact Hcov.
    change (launches E []) with (@nil string) in Hop2. rewrite app_nil_r in Hop2.
    destruct (Hidle eq_refl) as [Hself Hdisk]. auto.
Qed.

(** X23. The URLs a run opens are those of the fetched tickets that are
    neither skipped nor stopped by an exception while their request is
    built, one launch for each, in the order of the fetch; a ticket has no
    request exactly when building its notes raises. *)
Theorem processing_order E self jql pn f u w :
  opened (snd (sync_tickets E self jql pn f u w)) =
  opened w ++
  omap (ticket_url E)
    (List.filter
       (fun i => negb (is_skip (decision f u (is_ticket_synced (state self) (key i)))))
       (fetched_issues E jql)) /\
  forall i, ticket_url E i = None <-> exists e, format_ticket_notes i = Raise e.
Proof.
  rewrite <- kept_decision. split.
  - apply (sync_tickets_spec E self jql pn f u w).
  - apply ticket_url_none.
Qed.

(** X24. A selected ticket whose notes cannot be built is not sent to
    Things3 and is not marked: the loop body prints the exception with the
    identifier and changes nothing else, the run prints that line, and the
    ticket is not among those synced. *)
Theorem unbuilt_request_is_reported E self jql pn f u w i e :
  let sel := kept (state self) f u (fetched_issues E jql) in
  let r := sync_tickets E self jql pn f u w in
  In i sel ->
  format_ticket_notes i = Raise e ->
  (forall st n w', sync_ticket E u i st n w' =
                   ((st, n), add_stdout (MsgError (key i) e) w')) /\
  ticket_url E i = None /\
  ~ In i (sink_ok E (length (opened w)) sel) /\
  In (MsgError (key i) e) (stdout (snd r)).
Proof.
  cbv zeta. intros Hi He.
  assert (Hn : ticket_url E i = None) by (apply ticket_url_none; exists e; exact He).
  split; [intros st n w'; apply sync_ticket_unformatted; exact He|].
  split; [exact Hn|].
  split.
  - intros Hin. destruct (sink_ok_launched E _ _ _ Hin) as (url & Hu & _).
    rewrite Hn in Hu. discriminate Hu.
  - destruct (sync_tickets_spec E self jql pn f u w)
      as (_ & _ & _ & _ & out & Hs & _ & _ & _ & _ & _ & _ & _ & Hfmt).
    rewrite Hs. apply in_or_app. right. apply (Hfmt i e Hi He).
Qed.

(** * Instances of the further properties *)

Lemma stats_after_successful_mark_witness :
  let E := sample_env [] all_launches_ok in
  open_write E (writes (fresh_world None)) = Written /\
  fst (get_sync_stats
         (snd (mark_ticket_synced E (state (thira_with ["A"])) "B" (fresh_world None))))
    !! "total_synced" = Some (PInt 2).
Proof.
  cbv zeta.
  assert (Hw : open_write (sample_env [] all_launches_ok) (writes (fresh_world None))
               = Written) by reflexivity.
  split; [exact Hw|].
  exact (proj1 (stats_after_successful_mark (sample_env [] all_launches_ok)
                  (state (thira_with ["A"])) "B" (fresh_world None) Hw)).
Defined.

Lemma stats_stale_after_failed_write_witness :
  let E := sample_env_writes (fun _ => OpenFailed) in
  let w := fresh_world (Some (Data {| d_synced_tickets := Some ["A"];
                                      d_last_sync := Some "2024-12-31T00:00:00" |})) in
  open_write E (writes w) = OpenFailed /\
  is_ticket_synced (fst (mark_ticket_synced E (state (thira_with ["A"])) "B" w)) "B"
    = true /\
  fst (get_sync_stats (snd (mark_ticket_synced E (state (thira_with ["A"])) "B" w)))
    = fst (get_sync_stats w).
Proof.
  cbv zeta.
  set (E := sample_env_writes (fun _ => OpenFailed)).
  set (w := fresh_world (Some (Data {| d_synced_tickets := Some ["A"];
                                       d_last_sync := Some "2024-12-31T00:00:00" |}))).
  assert (Hw : open_write E (writes w) = OpenFailed) by reflexivity.
  destruct (stats_stale_after_failed_write E (state (thira_with ["A"])) "B" w Hw)
    as (Hin & Hstats & _).
  split; [exact Hw|]. split; [exact Hin | exact Hstats].
Defined.

Lemma first_run_creates_empty_file_witness :
  let E := sample_env [] all_launches_ok in
  disk (fresh_world None) = None /\
  fst (_load_state E (fresh_world None)) = ∅ /\
  writes (snd (_load_state E (fresh_world None))) = 1.
Proof.
  cbv zeta.
  assert (Hd : disk (fresh_world None) = None) by reflexivity.
  destruct (first_run_creates_empty_file (sample_env [] all_launches_ok)
              (fresh_world None) Hd) as (Hl & Hw & _).
  split; [exact Hd|]. split; [exact Hl | exact Hw].
Defined.

Lemma load_then_save_normalises_witness :
  let E := sample_env [] all_launches_ok in
  let d := {| d_synced_tickets := Some ["A"; "A"; "B"];
              d_last_sync := Some "2024-12-31T00:00:00" |} in
  let w := fresh_world (Some (Data d)) in
  disk w = Some (Data d) /\
  open_write E (writes w) = Written /\
  exists l t,
    disk (snd (mark_ticket_synced E (fst (StateManager_init E w)) "C"
                 (snd (StateManager_init E w)))) =
      Some (Data {| d_synced_tickets := Some l; d_last_sync := Some t |}) /\
    NoDup l.
Proof.
  cbv zeta.
  set (E := sample_env [] all_launches_ok).
  set (d := {| d_synced_tickets := Some ["A"; "A"; "B"];
               d_last_sync := Some "2024-12-31T00:00:00" |}).
  assert (Hd : disk (fresh_world (Some (Data d))) = Some (Data d)) by reflexivity.
  assert (Hw : open_write E (writes (fresh_world (Some (Data d)))) = Written)
    by reflexivity.
  destruct (load_then_save_normalises E d "C" (fresh_world (Some (Data d))) Hd Hw)
    as (_ & l & t & Hdisk & Hnd & _).
  split; [exact Hd|]. split; [exact Hw|].
  exists l, t. split; [exact Hdisk | exact Hnd].
Defined.

Lemma add_todo_params_keys_witness :
  truthy "today" = true /\
  In ("when", "today") (add_todo_params "T" "" "P" ["a"; "b"] "" "today") /\
  (In ("notes", "") (add_todo_params "T" "" "P" ["a"; "b"] "" "today") ->
   truthy "" = true).
Proof.
  assert (Ht : truthy "today" = true) by reflexivity.
  destruct (add_todo_params_keys "T" "" "P" ["a"; "b"] "" "today")
    as (_ & _ & Hnotes & _ & _ & _ & Hwhen & _).
  split; [exact Ht|]. split; [exact (proj2 Hwhen Ht) | exact (proj1 Hnotes)].
Defined.

Lemma fetch_failure_ends_run_witness :
  let E := sample_env_search_fails (OtherError "timeout") in
  let r := sync_tickets E (thira_with ["A"]) "project = X" "Jira Tickets" false false
             (fresh_world None) in
  search_issues E (effective_jql "project = X") 50 = Raise (OtherError "timeout") /\
  fst (fst r) = None /\
  snd (fst r) = thira_with ["A"] /\
  opened (snd r) = opened (fresh_world None).
Proof.
  cbv zeta.
  set (E := sample_env_search_fails (OtherError "timeout")).
  assert (Hs : search_issues E (effective_jql "project = X") 50 =
               Raise (OtherError "timeout")) by reflexivity.
  destruct (fetch_failure_ends_run E (thira_with ["A"]) "project = X" "Jira Tickets"
              false false (fresh_world None) (OtherError "timeout") Hs)
    as (Hnone & Hself & Hop & _).
  split; [exact Hs|]. split; [exact Hnone|]. split; [exact Hself | exact Hop].
Defined.

Lemma all_failures_leave_state_witness :
  let E := sample_env [sample_ticket "A"; sample_ticket "B"]
             (fun _ => Raise CalledProcessError) in
  let r := sync_tickets E (thira_with []) "" "Jira Tickets" false false
             (fresh_world None) in
  (forall p url,
      launches E (kept (state (thira_with [])) false false (fetched_issues E "")) !! p
        = Some url ->
      exists e, subprocess_run E (length (opened (fresh_world None)) + p) url
                = Raise e) /\
  snd (fst r) = thira_with [] /\
  disk (snd r) = disk (fresh_world None) /\
  writes (snd r) = writes (fresh_world None).
Proof.
  cbv zeta.
  set (E := sample_env [sample_ticket "A"; sample_ticket "B"]
              (fun _ => Raise CalledProcessError)).
  assert (Hall : forall p url,
             launches E (kept (state (thira_with [])) false false
                           (fetched_issues E "")) !! p = Some url ->
             exists e, subprocess_run E (length (opened (fresh_world None)) + p) url
                       = Raise e)
    by (intros p url _; exists CalledProcessError; reflexivity).
  destruct (all_failures_leave_state E (thira_with []) "" "Jira Tickets" false false
              (fresh_world None) Hall) as (Hself & Hdisk & Hw & _).
  split; [exact Hall|]. split; [exact Hself|]. split; [exact Hdisk | exact Hw].
Defined.

Lemma run_persists_ledger_witness :
  let E := sample_env [sample_ticket "A"; sample_ticket "B"] all_launches_ok in
  let r := sync_tickets E (thira_with []) "" "Jira Tickets" false false
             (fresh_world None) in
  sink_ok E (length (opened (fresh_world None)))
    (kept (state (thira_with [])) false false (fetched_issues E "")) <> [] /\
  (forall m,
      writes (fresh_world None) <= m <
      writes (fresh_world None) +
      length (sink_ok E (length (opened (fresh_world None)))
                (kept (state (thira_with [])) false false (fetched_issues E ""))) ->
      open_write E m = Written) /\
  synced_tickets (fst (StateManager_init E (snd r))) =
    synced_tickets (state (snd (fst r))).
Proof.
  cbv zeta.
  set (E := sample_env [sample_ticket "A"; sample_ticket "B"] all_launches_ok).
  assert (Hne : sink_ok E (length (opened (fresh_world None)))
                  (kept (state (thira_with [])) false false (fetched_issues E ""))
                <> []) by (vm_compute; discriminate).
  assert (Hall : forall m,
             writes (fresh_world None) <= m <
             writes (fresh_world None) +
             length (sink_ok E (length (opened (fresh_world None)))
                       (kept (state (thira_with [])) false false (fetched_issues E ""))) ->
             open_write E m = Written) by (intros m _; reflexivity).
  destruct (run_persists_ledger E (thira_with []) "" "Jira Tickets" false false
              (fresh_world None) Hne Hall) as (_ & Hload & _).
  split; [exact Hne|]. split; [exact Hall | exact Hload].
Defined.

Lemma restarted_run_is_idle_witness :
  let E := sample_env [sample_ticket "A"; sample_ticket "B"] all_launches_ok in
  let r1 := sync_tickets E (thira_with []) "" "Jira Tickets" false false
              (fresh_world None) in
  let self2 := {| state := fst (StateManager_init E (snd r1)) |} in
  let r2 := sync_tickets E self2 "" "Jira Tickets" false false
              (snd (StateManager_init E (snd r1))) in
  kept (state (thira_with [])) false false (fetched_issues E "") <> [] /\
  (forall i, In i (kept (state (thira_with [])) false false (fetched_issues E "")) ->
             exists notes, format_ticket_notes i = Ret notes) /\
  (forall n url,
      length (opened (fresh_world None)) <= n -> opened (snd r1) !! n = Some url ->
      subprocess_run E n url = Ret tt) /\
  (forall m,
      writes (fresh_world None) <= m <
      writes (fresh_world None) +
      length (kept (state (thira_with [])) false false (fetched_issues E "")) ->
      open_write E m = Written) /\
  opened (snd r2) = opened (snd r1).
Proof.
  cbv zeta.
  set (E := sample_env [sample_ticket "A"; sample_ticket "B"] all_launches_ok).
  assert (Hne : kept (state (thira_with [])) false false (fetched_issues E "") <> [])
    by (vm_compute; discriminate).
  assert (Hfmt : forall i,
             In i (kept (state (thira_with [])) false false (fetched_issues E "")) ->
             exists notes, format_ticket_notes i = Ret notes).
  { intros i Hi.
    change (In i [sample_ticket "A"; sample_ticket "B"]) in Hi.
    destruct Hi as [<-|[<-|[]]]; eexists; reflexivity. }
  assert (Hl : forall n url,
             length (opened (fresh_world None)) <= n ->
             opened (snd (sync_tickets E (thira_with []) "" "Jira Tickets" false false
                            (fresh_world None))) !! n = Some url ->
             subprocess_run E n url = Ret tt) by (intros n url _ _; reflexivity).
  assert (Hw : forall m,
             writes (fresh_world None) <= m <
             writes (fresh_world None) +
             length (kept (state (thira_with [])) false false (fetched_issues E "")) ->
             open_write E m = Written) by (intros m _; reflexivity).
  destruct (restarted_run_is_idle E (thira_with []) "" "Jira Tickets"
              (fresh_world None) Hne Hfmt Hl Hw) as (_ & _ & Hop & _).
  split; [exact Hne|]. split; [exact Hfmt|]. split; [exact Hl|].
  split; [exact Hw | exact Hop].
Defined.

Lemma run_only_adds_fetched_keys_witness :
  let E := sample_env [sample_ticket "B"] all_launches_ok in
  let r := sync_tickets E (thira_with ["A"]) "" "Jira Tickets" false false
             (fresh_world None) in
  is_ticket_synced (state (thira_with ["A"])) "A" = true /\
  is_ticket_synced (state (snd (fst r))) "A" = true.
Proof.
  cbv zeta.
  assert (H : is_ticket_synced (state (thira_with ["A"])) "A" = true)
    by (vm_compute; reflexivity).
  split; [exact H|].
  exact (proj1 (run_only_adds_fetched_keys
                  (sample_env [sample_ticket "B"] all_launches_ok)
                  (thira_with ["A"]) "" "Jira Tickets" false false (fresh_world None)
                  "A") H).
Defined.

Lemma removed_ticket_is_resynced_witness :
  let E := sample_env [sample_ticket "A"; sample_ticket "B"] all_launches_ok in
  let self1 := fst (remove_ticket_from_sync E (thira_with ["A"; "B"]) "A"
                      (fresh_world None)) in
  let w1 := snd (remove_ticket_from_sync E (thira_with ["A"; "B"]) "A"
                   (fresh_world None)) in
  exists url,
    In (sample_ticket "A") (fetched_issues E "") /\
    key (sample_ticket "A") = "A" /\
    ticket_url E (sample_ticket "A") = Some url /\
    is_ticket_synced (state self1) "A" = false /\
    exists pre post,
      opened (snd (sync_tickets E self1 "" "Jira Tickets" false false w1)) =
      opened w1 ++ pre ++ [url] ++ post.
Proof.
  cbv zeta.
  set (E := sample_env [sample_ticket "A"; sample_ticket "B"] all_launches_ok).
  exists (default "" (ticket_url E (sample_ticket "A"))).
  assert (Hi : In (sample_ticket "A") (fetched_issues E ""))
    by (left; reflexivity).
  assert (Hk : key (sample_ticket "A") = "A") by reflexivity.
  assert (Hu : ticket_url E (sample_ticket "A") =
               Some (default "" (ticket_url E (sample_ticket "A")))) by reflexivity.
  destruct (removed_ticket_is_resynced E (thira_with ["A"; "B"]) "A" ""
              "Jira Tickets" (fresh_world None) (sample_ticket "A") _ Hi Hk Hu)
    as (Hns & _ & _ & Hop).
  split; [exact Hi|]. split; [exact Hk|]. split; [exact Hu|].
  split; [exact Hns | exact Hop].
Defined.

Lemma second_run_is_idle_witness :
  let E := sample_env [sample_ticket "A"; sample_ticket "B"] all_launches_ok in
  let r1 := sync_tickets E (thira_with []) "" "Jira Tickets" false false
              (fresh_world None) in
  let r2 := sync_tickets E (snd (fst r1)) "" "Jira Tickets" false false (snd r1) in
  (forall i, In i (kept (state (thira_with [])) false false (fetched_issues E "")) ->
             exists notes, format_ticket_notes i = Ret notes) /\
  (forall n url,
      length (opened (fresh_world None)) <= n -> opened (snd r1) !! n = Some url ->
      subprocess_run E n url = Ret tt) /\
  Forall (fun i => decision false false
                     (is_ticket_synced (state (snd (fst r1))) (key i)) = Skip)
    (fetched_issues E "") /\
  opened (snd r2) = opened (snd r1) /\
  snd (fst r2) = snd (fst r1) /\
  disk (snd r2) = disk (snd r1).
Proof.
  cbv zeta.
  assert (Hfmt : forall i,
             In i (kept (state (thira_with [])) false false
                     (fetched_issues
                        (sample_env [sample_ticket "A"; sample_ticket "B"]
                           all_launches_ok) "")) ->
             exists notes, format_ticket_notes i = Ret notes).
  { intros i Hi.
    change (In i [sample_ticket "A"; sample_ticket "B"]) in Hi.
    destruct Hi as [<-|[<-|[]]]; eexists; reflexivity. }
  assert (Hall : forall n url,
             length (opened (fresh_world None)) <= n ->
             opened (snd (sync_tickets
                            (sample_env [sample_ticket "A"; sample_ticket "B"]
                               all_launches_ok)
                            (thira_with []) "" "Jira Tickets" false false
                            (fresh_world None))) !! n = Some url ->
             subprocess_run
               (sample_env [sample_ticket "A"; sample_ticket "B"] all_launches_ok)
               n url = Ret tt)
    by (intros n url _ _; reflexivity).
  split; [exact Hfmt|]. split; [exact Hall|].
  exact (second_run_is_idle
           (sample_env [sample_ticket "A"; sample_ticket "B"] all_launches_ok)
           (thira_with []) "" "Jira Tickets" (fresh_world None) Hfmt Hall).
Defined.

Lemma unbuilt_request_is_reported_witness :
  let E := sample_env [sample_ticket "A"; orphan_ticket "B"] all_launches_ok in
  let r := sync_tickets E (thira_with []) "" "Jira Tickets" false false
             (fresh_world None) in
  In (orphan_ticket "B")
     (kept (state (thira_with [])) false false (fetched_issues E "")) /\
  format_ticket_notes (orphan_ticket "B") = Raise AttributeError /\
  ticket_url E (orphan_ticket "B") = None /\
  In (MsgError "B" AttributeError) (stdout (snd r)).
Proof.
  cbv zeta.
  set (E := sample_env [sample_ticket "A"; orphan_ticket "B"] all_launches_ok).
  assert (Hi : In (orphan_ticket "B")
                 (kept (state (thira_with [])) false false (fetched_issues E "")))
    by (right; left; reflexivity).
  assert (He : format_ticket_notes (orphan_ticket "B") = Raise AttributeError)
    by reflexivity.
  destruct (unbuilt_request_is_reported E (thira_with []) "" "Jira Tickets" false false
              (fresh_world None) (orphan_ticket "B") AttributeError Hi He)
    as (_ & Hn & _ & Hin).
  split; [exact Hi|]. split; [exact He|]. split; [exact Hn | exact Hin].
Defined.
